(** * Learn course content: module metadata and tutorial notebooks

    The repository holds two kinds of files: course-module YAML metadata
    (index.yml) and Jupyter notebooks whose code cells call into numeric
    libraries.  The YAML documents are embedded as parsed trees, the
    notebook cells as programs of a small state-and-exception monad whose
    library calls are parameters. *)

From Stdlib Require Import ZArith QArith List String Ascii Bool Lia Lqa.
From Stdlib Require Import Floats.SpecFloat.
From stdpp Require Import base option list gmap strings.
Import ListNotations.

Set Warnings "-register-all".

Close Scope Q_scope.
Local Open Scope string_scope.
Local Open Scope list_scope.

(* ===================================================================== *)
(** * Numbers of the numeric libraries *)
(* ===================================================================== *)

(** IEEE 754 binary32 (torch.float, TensorFlow's default float) and
    binary64 (NumPy's default float), as the Standard Library specifies
    them. *)
Definition float32 : Type := spec_float.
Definition float64 : Type := spec_float.

Module F32.
Definition prec : Z := 24.
Definition emax : Z := 128.
Definition of_Z (z : Z) : float32 := binary_normalize prec emax z 0 false.
Definition zero : float32 := of_Z 0.
Definition one : float32 := of_Z 1.
Definition add : float32 -> float32 -> float32 := SFadd prec emax.
Definition mul : float32 -> float32 -> float32 := SFmul prec emax.
(** Sum of the entries of a vector, accumulated from the left. *)
Definition sum (v : list float32) : float32 := fold_left add v zero.
End F32.

Module F64.
Definition prec : Z := 53.
Definition emax : Z := 1024.
Definition of_Z (z : Z) : float64 := binary_normalize prec emax z 0 false.
End F64.

(* ===================================================================== *)
(** * The notebook kernel *)
(* ===================================================================== *)

(** A code cell is a program whose library calls are events answered by
    the installed libraries.  The kernel runs the statements of a cell in
    order and stops the cell at the first exception.  The program type
    has no handler construct, as the cells have no [try]; the one
    compound statement that runs code on the way out is [with]. *)
Module Kernel.

(** A raised Python exception, by its printed form. *)
Definition exn : Type := string.

Section Prog.
Context {E : Type -> Type}.

(** [Raise]: a library function that is modelled in place raises.
    [Stmt]: the statement at this line of the notebook file starts.
    [Call]: a library call, and what is done with its result.
    [With]: [with <enter> as x: <body x>], and what follows it. *)
Inductive prog (A : Type) : Type :=
| Ret (a : A)
| Raise (e : exn)
| Stmt (line : nat) (k : prog A)
| Call {X : Type} (ev : E X) (k : X -> prog A)
| With {X B : Type} (enter : E X) (body : X -> prog B) (k : B -> prog A).

Arguments Ret {A} a.
Arguments Raise {A} e.
Arguments Stmt {A} line k.
Arguments Call {A X} ev k.
Arguments With {A X B} enter body k.

Fixpoint bind {A B} (p : prog A) (f : A -> prog B) : prog B :=
  match p with
  | Ret a => f a
  | Raise e => Raise e
  | Stmt l k => Stmt l (bind k f)
  | Call ev k => Call ev (fun x => bind (k x) f)
  | With enter body k => With enter body (fun b => bind (k b) f)
  end.

Definition lib {X} (ev : E X) : prog X := Call ev Ret.

Definition lift {A} (r : exn + A) : prog A :=
  match r with inl e => Raise e | inr a => Ret a end.

(** for x in xs: acc = body x acc *)
Fixpoint for_ {S} (xs : list Z) (body : Z -> S -> prog S) (acc : S) : prog S :=
  match xs with
  | [] => Ret acc
  | x :: rest => bind (body x acc) (for_ rest body)
  end.

(** What the kernel did, in order. *)
Inductive entry : Type :=
| LStmt (line : nat)
| LCall {X : Type} (ev : E X) (r : exn + X)
| LRaise (e : exn)
| LExit {X : Type} (ev : E X).

Context {W : Type}.

(** The installed libraries: [call] answers an event in the current
    world (file system, network, random state, figures) with an
    exception or a value; [leave] is the [__exit__] of a context
    manager, which returns [None] and so never swallows an exception. *)
Record library : Type := {
  call : forall X, E X -> W -> W * (exn + X);
  leave : forall X, E X -> X -> W -> W
}.

Record kernel : Type := { world : W; log : list entry }.

Inductive outcome (A : Type) : Type :=
| Done (a : A) (s : kernel)
| Failed (e : exn) (s : kernel).
Arguments Done {A} a s.
Arguments Failed {A} e s.

Variable L : library.

Definition record (s : kernel) (w : W) (en : entry) : kernel :=
  {| world := w; log := log s ++ [en] |}.

Fixpoint run {A} (p : prog A) (s : kernel) : outcome A :=
  match p with
  | Ret a => Done a s
  | Raise e => Failed e (record s (world s) (LRaise e))
  | Stmt l k => run k (record s (world s) (LStmt l))
  | Call ev k =>
      let '(w, r) := call L _ ev (world s) in
      let s1 := record s w (LCall ev r) in
      match r with
      | inl e => Failed e s1
      | inr x => run (k x) s1
      end
  | With enter body k =>
      let '(w, r) := call L _ enter (world s) in
      let s1 := record s w (LCall enter r) in
      match r with
      | inl e => Failed e s1
      | inr x =>
          match run (body x) s1 with
          | Done b s2 =>
              run (k b) (record s2 (leave L _ enter x (world s2)) (LExit enter))
          | Failed e s2 =>
              Failed e (record s2 (leave L _ enter x (world s2)) (LExit enter))
          end
      end
  end.

(** ** Reading a log *)

(** The entry is a library call that returned, a statement start or a
    context-manager exit: nothing was raised there. *)
Definition succeeded (en : entry) : Prop :=
  match en with
  | LCall _ (inl _) | LRaise _ => False
  | _ => True
  end.

(** The entry is a library call that raised exactly [e]. *)
Definition raises (e : exn) (en : entry) : Prop :=
  match en with
  | LCall _ (inl e') | LRaise e' => e' = e
  | _ => False
  end.

Definition is_exit (en : entry) : Prop :=
  match en with LExit _ => True | _ => False end.

(** The run [o] from kernel state [s] handled nothing: it ends
    normally only if no call raised, and it ends with exception [e]
    only if one call raised [e], every call before it returned, and
    after it the kernel started no statement and made no call (it only
    left the [with] blocks it was in). *)
Definition unhandled {A} (s : kernel) (o : outcome A) : Prop :=
  match o with
  | Done _ s' => exists d, log s' = log s ++ d /\ Forall succeeded d
  | Failed e s' =>
      exists d en t,
        log s' = log s ++ d ++ en :: t
        /\ Forall succeeded d /\ raises e en /\ Forall is_exit t
  end.

(** The statements started by a log, by line. *)
Definition lines (l : list entry) : list nat :=
  omap (fun en => match en with LStmt n => Some n | _ => None end) l.
End Prog.

Arguments prog : clear implicits.
Arguments Ret {E A} a.
Arguments Raise {E A} e.
Arguments Stmt {E A} line k.
Arguments Call {E A X} ev k.
Arguments With {E A X B} enter body k.
Arguments entry : clear implicits.
Arguments library : clear implicits.
Arguments kernel : clear implicits.
Arguments outcome : clear implicits.
Arguments Done {E W A} a s.
Arguments Failed {E W A} e s.
Arguments call {E W} L {X} ev w : rename.
Arguments leave {E W} L {X} ev x w : rename.

Definition start {E W} (w : W) : kernel E W := {| world := w; log := [] |}.

Module Notations.
Notation "x <- p ;; k" := (bind p (fun x => k))
  (at level 100, p at next level, right associativity).
Notation "p ;;; k" := (bind p (fun _ => k))
  (at level 100, right associativity).
Notation "l @: p" := (Stmt l p) (at level 99, right associativity).
End Notations.

End Kernel.

(** Python's [range(a, b)]. *)
Definition range (a b : Z) : list Z :=
  map (fun k => (a + Z.of_nat k)%Z) (seq 0 (Z.to_nat (b - a))).

(** Python's [l[a:b]] for bounds that are not negative. *)
Definition slice {A} (a b : nat) (l : list A) : list A :=
  take (b - a) (drop a l).

(* ===================================================================== *)
(** * Course-module metadata (index.yml) *)
(* ===================================================================== *)

Module Yaml.

(** A parsed YAML node.  [YTag] is a node carrying an explicit tag
    (the only way a YAML document can ask its loader to build an
    object or run a constructor); plain documents have none. *)
Inductive yaml : Type :=
| YStr (s : string)
| YSeq (items : list yaml)
| YMap (entries : list (string * yaml))
| YTag (tag : string) (node : yaml).

(** Lookup of a key in a mapping node (first binding). *)
Fixpoint assoc (k : string) (kvs : list (string * yaml)) : option yaml :=
  match kvs with
  | [] => None
  | (k', v) :: rest => if String.eqb k k' then Some v else assoc k rest
  end.

Definition get (k : string) (y : yaml) : option yaml :=
  match y with
  | YMap kvs => assoc k kvs
  | _ => None
  end.

Definition get_str (k : string) (y : yaml) : option string :=
  match get k y with
  | Some (YStr s) => Some s
  | _ => None
  end.

Definition as_str (y : yaml) : option string :=
  match y with YStr s => Some s | _ => None end.

(** A key holding a sequence of string scalars. *)
Definition get_strs (k : string) (y : yaml) : option (list string) :=
  match get k y with
  | Some (YSeq items) => mapM as_str items
  | _ => None
  end.

(** No node of the document carries a tag: it is data only. *)
Fixpoint static (y : yaml) : bool :=
  match y with
  | YStr _ => true
  | YSeq items => forallb static items
  | YMap kvs => forallb (fun kv => static (snd kv)) kvs
  | YTag _ _ => false
  end.

Definition nl : string := String (ascii_of_nat 10) EmptyString.

(** src/unnamed/part_000 *)
Definition part_000 : yaml :=
  YMap [
    ("uid", YStr "learn.azure.ai-machine-learning-fundamentals");
    ("metadata", YMap [
       ("title", YStr "Choose the best AI service for your needs");
       ("description", YStr "Examine Azure's AI services, and choose the right one for your company. Prepare for AZ-900.");
       ("ms.service", YStr "cognitive-services");
       ("ms.date", YStr "02/14/2023");
       ("author", YStr "wwlpublish");
       ("ms.author", YStr "robbarefoot");
       ("ms.topic", YStr "interactive-tutorial") ]);
    ("title", YStr "Choose the best AI service for your needs");
    ("summary", YStr "Examine Azure's AI services, and choose the right one for your company.");
    ("abstract", YStr
       ("After you've completed this module, you will be able to:" ++ nl ++
        "  - Choose the Azure AI services that best address your company's business challenges." ++ nl));
    ("prerequisites", YStr
       ("- Familiarity with the concept of *application programming interfaces*, or APIs. Programmers use APIs to interact with the functionality that's contained in code libraries." ++ nl ++
        "- Familiarity with the following additional concepts:" ++ nl ++
        "     - *Web API*: An API that's accessible from servers that accept requests via HTTP." ++ nl ++
        "     - *Web API endpoint*: The location of the code library." ++ nl ++
        "     - *REST API*: The design of the URL style that's used to expose the API's functionality." ++ nl));
    ("iconUrl", YStr "/training/achievements/ai-machine-learning-fundamentals.svg");
    ("levels", YSeq [YStr "beginner"]);
    ("roles", YSeq [YStr "administrator"; YStr "business-owner"; YStr "developer";
                    YStr "student"; YStr "technology-manager"]);
    ("products", YSeq [YStr "azure"; YStr "azure-bot-service";
                       YStr "azure-cognitive-services"; YStr "azure-machine-learning"]);
    ("subjects", YSeq [YStr "artificial-intelligence"]);
    ("units", YSeq [
       YStr "learn.azure.ai-machine-learning-fundamentals.introduction";
       YStr "learn.azure.ai-machine-learning-fundamentals.identify-product-options";
       YStr "learn.azure.ai-machine-learning-fundamentals.analyze-decision-criteria";
       YStr "learn.azure.ai-machine-learning-fundamentals.use-machine-learning";
       YStr " learn.azure.ai-machine-learning-fundamentals.use-cognitive-services";
       YStr "learn.azure.ai-machine-learning-fundamentals.use-bot-services";
       YStr "learn.azure.ai-machine-learning-fundamentals.knowledge-check";
       YStr "learn.azure.ai-machine-learning-fundamentals.summary" ]);
    ("badge", YMap [("uid", YStr "learn.azure.ai-machine-learning-fundamentals.badge")])
  ].

(** src/learn-pr/advocates/responsible-bots-introduction/index.yml *)
Definition responsible_bots_introduction : yaml :=
  YMap [
    ("uid", YStr "learn.advocates.responsible-bots-introduction");
    ("metadata", YMap [
       ("title", YStr "Introduction to responsible bots");
       ("description", YStr "Learn about responsible bots. Understand the principles of responsible conversational AI, and find out how to implement those principles in bots.");
       ("ms.service", YStr "cognitive-services");
       ("ms.date", YStr "02/06/2023");
       ("author", YStr "JKirsch1");
       ("ms.author", YStr "chnoring");
       ("ms.topic", YStr "interactive-tutorial");
       ("ms.custom", YStr "team=nextgen") ]);
    ("title", YStr "Introduction to responsible bots");
    ("summary", YStr "Find out how to make a bot responsible. Learn about responsible conversational AI. Discover Azure Cognitive Services tools that help make bots engaging and trustworthy.");
    ("abstract", YStr
       ("In this module, you'll:" ++ nl ++
        "- Understand the principles of developing responsible bots." ++ nl ++
        "- Learn the basic building blocks for creating conversational UIs." ++ nl ++
        "- Explore how your bot can be more culturally sensitive." ++ nl));
    ("iconUrl", YStr "/training/achievements/responsible-bots-introduction.svg");
    ("levels", YSeq [YStr "beginner"]);
    ("roles", YSeq [YStr "developer"; YStr "student"]);
    ("products", YSeq [YStr "azure"; YStr "azure-cognitive-services"]);
    ("prerequisites", YStr ("- None" ++ nl));
    ("subjects", YSeq [YStr "artificial-intelligence"]);
    ("units", YSeq [
       YStr "learn.advocates.responsible-bots-introduction.1-introduction";
       YStr "learn.advocates.responsible-bots-introduction.2-what-is-responsible-bot";
       YStr "learn.advocates.responsible-bots-introduction.3-how-responsible-bot-works";
       YStr "learn.advocates.responsible-bots-introduction.4-when-to-use-responsible-bot";
       YStr "learn.advocates.responsible-bots-introduction.5-knowledge-check";
       YStr "learn.advocates.responsible-bots-introduction.6-summary" ]);
    ("badge", YMap [("uid", YStr "learn.advocates.responsible-bots-introduction.badge")])
  ].

(** The module files of the repository. *)
Definition module_files : list yaml :=
  [part_000; responsible_bots_introduction].

(** ** The registration schema *)

Definition nonempty {A} (l : list A) : bool :=
  match l with [] => false | _ => true end.

Definition nonempty_strs (k : string) (y : yaml) : bool :=
  match get_strs k y with
  | Some l => nonempty l
  | None => false
  end.

Definition present {A} (o : option A) : bool :=
  match o with Some _ => true | None => false end.

Definition conforms (y : yaml) : bool :=
  present (get_str "title" y) && present (get_str "summary" y)
  && nonempty_strs "units" y && nonempty_strs "products" y.

(** ** Unit identifiers *)

Definition is_space (c : ascii) : bool :=
  let n := nat_of_ascii c in
  (n =? 32)%nat || ((9 <=? n)%nat && (n <=? 13)%nat).

Fixpoint lstrip (s : string) : string :=
  match s with
  | String c rest => if is_space c then lstrip rest else s
  | EmptyString => s
  end.

(** [s] is [uid], a dot, and a unit name of at least one character. *)
Definition unit_of (uid s : string) : bool :=
  String.prefix (uid ++ ".") s
  && (String.length (uid ++ ".") <? String.length s)%nat.

Definition units_ok (strip : string -> string) (y : yaml) : bool :=
  match get_str "uid" y, get_strs "units" y with
  | Some uid, Some us => forallb (fun u => unit_of uid (strip u)) us
  | _, _ => false
  end.

End Yaml.

(* ===================================================================== *)
(** * 01-clustering-introduction.ipynb *)
(* ===================================================================== *)

Module Clustering.
Import Kernel Kernel.Notations.

(** ** pandas and NumPy values *)

(** A table cell as [read_csv] parses it. *)
Inductive scalar : Type :=
| Num (x : float64)
| Text (s : string).

Definition is_numeric (c : scalar) : bool :=
  match c with Num _ => true | Text _ => false end.

Definition ndarray : Type := list (list scalar).

Record DataFrame : Type := {
  columns : list string;
  rows : list (list scalar)
}.

(** [df.values] *)
Definition values (df : DataFrame) : ndarray := rows df.

(** The positions of the columns of [cols] that carry [label]. *)
Fixpoint positions_from (i : nat) (label : string) (cols : list string)
  : list nat :=
  match cols with
  | [] => []
  | c :: rest =>
      (if String.eqb label c then [i] else []) ++ positions_from (S i) label rest
  end.

Definition positions : string -> list string -> list nat := positions_from 0.

Definition pick {A} (ps : list nat) (l : list A) : list A :=
  omap (fun p => l !! p) ps.

(** [df[labels]]: the columns named by [labels], in that order; a label
    that names several columns selects all of them, a label that names
    none is a [KeyError]. *)
Definition getitem (df : DataFrame) (labels : list string) : exn + DataFrame :=
  match mapM (fun l => match positions l (columns df) with
                       | [] => None
                       | ps => Some ps
                       end) labels with
  | None => inl "KeyError"
  | Some pss =>
      let ps := concat pss in
      inr {| columns := pick ps (columns df); rows := map (pick ps) (rows df) |}
  end.

(** [a[:, j]] *)
Definition column (j : nat) (a : ndarray) : exn + list scalar :=
  match mapM (fun row => row !! j) a with
  | Some c => inr c
  | None => inl "IndexError"
  end.

(** ** scikit-learn estimators *)

Record PCA : Type := { n_components : Z; components_ : ndarray }.

(** [KMeans(n_clusters = i)], and the estimator after [fit]. *)
Record KMeans : Type := { n_clusters : Z }.
Record FittedKMeans : Type := { params : KMeans; inertia_ : float64 }.

(** ** Library calls *)

Inductive E : Type -> Type :=
| Import (module : string) : E unit
| Magic (line : string) : E unit
| Shell (cmd : string) : E unit
| read_csv (path : string) : E DataFrame
| DataFrame_sample (df : DataFrame) (n : Z) : E DataFrame
| MinMaxScaler_fit_transform (X : DataFrame) : E ndarray
| PCA_fit (self : PCA) (X : ndarray) : E PCA
| PCA_transform (self : PCA) (X : ndarray) : E ndarray
| plt_scatter (x y : list scalar) : E unit
| plt_plot (x : list Z) (y : list float64) : E unit
| plt_xlabel (s : string) : E unit
| plt_ylabel (s : string) : E unit
| plt_title (s : string) : E unit
| plt_show : E unit
| KMeans_fit (self : KMeans) (X : ndarray) : E FittedKMeans.

Definition url : string :=
  "https://raw.githubusercontent.com/MicrosoftDocs/mslearn-introduction-to-machine-learning/main/Data/ml-basics/seeds.csv".

(** ** The code cells (line numbers are those of the notebook file) *)

(** [features = data[data.columns[0:6]]] *)
Definition features_of (data : DataFrame) : exn + DataFrame :=
  getitem data (slice 0 6 (columns data)).

(** Lines 22-30.  [!wget] runs in a subshell; the cell goes on whatever
    its exit status. *)
Definition load_cell : prog E (DataFrame * DataFrame * DataFrame) :=
  22 @: lib (Import "pandas") ;;;
  25 @: lib (Shell ("wget " ++ url)) ;;;
  data <- 26 @: lib (read_csv "seeds.csv") ;;
  features <- 29 @: lift (features_of data) ;;
  shown <- 30 @: lib (DataFrame_sample features 10) ;;
  Ret (data, features, shown).

(** Lines 48-57. *)
Definition pca_cell (data features : DataFrame)
  : prog E (ndarray * PCA * ndarray * ndarray) :=
  48 @: lib (Import "sklearn.preprocessing") ;;;
  49 @: lib (Import "sklearn.decomposition") ;;;
  scaled_features <- 52 @: (X <- lift (getitem features (slice 0 6 (columns data))) ;;
                            lib (MinMaxScaler_fit_transform X)) ;;
  pca <- 55 @: lib (PCA_fit {| n_components := 2; components_ := [] |} scaled_features) ;;
  features_2d <- 56 @: lib (PCA_transform pca scaled_features) ;;
  shown <- 57 @: Ret (slice 0 10 features_2d) ;;
  Ret (scaled_features, pca, features_2d, shown).

(** Lines 73-81. *)
Definition scatter_cell (features_2d : ndarray) : prog E unit :=
  73 @: lib (Import "matplotlib.pyplot") ;;;
  75 @: lib (Magic "matplotlib inline") ;;;
  77 @: (x <- lift (column 0 features_2d) ;;
         y <- lift (column 1 features_2d) ;;
         lib (plt_scatter x y)) ;;;
  78 @: lib (plt_xlabel "Dimension 1") ;;;
  79 @: lib (plt_ylabel "Dimension 2") ;;;
  80 @: lib (plt_title "Data") ;;;
  81 @: lib plt_show.

(** Lines 106-112: the search over the number of clusters. *)
Definition wcss_body (X : ndarray) (i : Z) (wcss : list float64)
  : prog E (list float64) :=
  kmeans <- 108 @: Ret {| n_clusters := i |} ;;
  fitted <- 110 @: lib (KMeans_fit kmeans X) ;;
  112 @: Ret (wcss ++ [inertia_ fitted]).

Definition wcss_loop (features : DataFrame) : prog E (list float64) :=
  wcss <- 106 @: Ret [] ;;
  107 @: for_ (range 1 11) (wcss_body (values features)) wcss.

(** Lines 100-119. *)
Definition wcss_cell (features : DataFrame) : prog E (list float64) :=
  100 @: lib (Import "numpy") ;;;
  101 @: lib (Import "matplotlib.pyplot") ;;;
  102 @: lib (Import "sklearn.cluster") ;;;
  103 @: lib (Magic "matplotlib inline") ;;;
  wcss <- wcss_loop features ;;
  115 @: lib (plt_plot (range 1 11) wcss) ;;;
  116 @: lib (plt_title "WCSS by Clusters") ;;;
  117 @: lib (plt_xlabel "Number of clusters") ;;;
  118 @: lib (plt_ylabel "WCSS") ;;;
  119 @: lib plt_show ;;;
  Ret wcss.

(** The [fit] calls of a log: the estimator, the data and what came back. *)
Definition fit_call (en : entry E)
  : option (KMeans * ndarray * (exn + FittedKMeans)) :=
  match en with
  | @LCall _ X ev r =>
      match ev in E T return (exn + T) -> option (KMeans * ndarray * (exn + FittedKMeans)) with
      | KMeans_fit self X => fun r => Some (self, X, r)
      | _ => fun _ => None
      end r
  | _ => None
  end.

(** The log record of a [fit] of [KMeans(n_clusters = i)] on [X] that
    returned [m]. *)
Definition fit_record (X : ndarray) (i : Z) (m : FittedKMeans)
  : KMeans * ndarray * (exn + FittedKMeans) :=
  ({| n_clusters := i |}, X, inr m).

End Clustering.

(* ===================================================================== *)
(** * scikit-learn's MinMaxScaler and PCA *)
(* ===================================================================== *)

(** The two estimators of lines 52-56, after scikit-learn's
    [MinMaxScaler] (feature_range (0, 1)) and [PCA], with NumPy's
    float64 arithmetic.  The same code is read over the rationals to say
    what the estimators compute before rounding. *)
Module Sklearn.
Import Kernel.

(** The arithmetic of an array's element type. *)
Class Arith (F : Type) : Type := {
  f0 : F;
  f1 : F;
  fadd : F -> F -> F;
  fsub : F -> F -> F;
  fmul : F -> F -> F;
  fdiv : F -> F -> F;
  fltb : F -> F -> bool;
  (** [10 * np.finfo(np.float64).eps] *)
  tiny : F;
  of_nat : nat -> F;
  fnan : F;
  is_nan : F -> bool;
  is_inf : F -> bool
}.

#[global] Instance Arith_float64 : Arith float64 :=
  {| f0 := F64.of_Z 0; f1 := F64.of_Z 1;
     fadd := SFadd F64.prec F64.emax; fsub := SFsub F64.prec F64.emax;
     fmul := SFmul F64.prec F64.emax; fdiv := SFdiv F64.prec F64.emax;
     fltb := SFltb;
     tiny := SFmul F64.prec F64.emax (F64.of_Z 10) (S754_finite false 1 (-52));
     of_nat := fun n => F64.of_Z (Z.of_nat n);
     fnan := S754_nan;
     is_nan := fun x => match x with S754_nan => true | _ => false end;
     is_inf := fun x => match x with S754_infinity _ => true | _ => false end |}.

(** The rationals: every number is finite. *)
#[global] Instance Arith_Q : Arith Q :=
  {| f0 := 0%Q; f1 := 1%Q; fadd := Qplus; fsub := Qminus; fmul := Qmult;
     fdiv := Qdiv; fltb := fun a b => negb (Qle_bool b a);
     tiny := (10 # 4503599627370496)%Q;
     of_nat := fun n => inject_Z (Z.of_nat n);
     fnan := 0%Q;
     is_nan := fun _ => false;
     is_inf := fun _ => false |}.

Section Estimators.
Context {F : Type} `{Arith F}.

Definition matrix : Type := list (list F).

Definition ncols (X : matrix) : nat :=
  match X with [] => 0 | row :: _ => length row end.

(** [X[:, j]] *)
Definition col (j : nat) (X : matrix) : list F := omap (fun row => row !! j) X.

Definition columns_of (X : matrix) : list (list F) :=
  map (fun j => col j X) (seq 0 (ncols X)).

Definition finite (x : F) : bool := negb (is_nan x || is_inf x).

Definition fmin (a b : F) : F := if fltb b a then b else a.
Definition fmax (a b : F) : F := if fltb a b then b else a.

(** [np.nanmin] and [np.nanmax] along a column: NaN entries are passed
    over, and a column of nothing else gives NaN. *)
Definition reduce (op : F -> F -> F) (c : list F) : F :=
  match List.filter (fun x => negb (is_nan x)) c with
  | [] => fnan
  | x :: rest => fold_left op rest x
  end.

Record MinMaxScaler : Type := {
  data_min_ : list F;
  data_max_ : list F;
  data_range_ : list F;
  scale_ : list F;
  min_ : list F
}.

(** A column that is constant up to rounding is not rescaled. *)
Definition handle_zeros_in_scale (r : F) : F := if fltb r tiny then f1 else r.

(** [MinMaxScaler().fit(X)].  The input must have a row and a column,
    and no infinite entry (NaN is let through):
    [scale_ = (1 - 0) / handle_zeros(data_max - data_min)],
    [min_ = 0 - data_min * scale_]. *)
Definition fit (X : matrix) : exn + MinMaxScaler :=
  if ((length X =? 0) || (ncols X =? 0))%nat || existsb (existsb is_inf) X
  then inl "ValueError"
  else
    let data_min := map (reduce fmin) (columns_of X) in
    let data_max := map (reduce fmax) (columns_of X) in
    let data_range := zip_with fsub data_max data_min in
    let scale :=
      map (fun r => fdiv (fsub f1 f0) (handle_zeros_in_scale r)) data_range in
    inr {| data_min_ := data_min; data_max_ := data_max;
           data_range_ := data_range; scale_ := scale;
           min_ := zip_with (fun m s => fsub f0 (fmul m s)) data_min scale |}.

(** [transform]: [X *= scale_; X += min_], row by row. *)
Definition transform (self : MinMaxScaler) (X : matrix) : matrix :=
  map (fun row => zip_with fadd (zip_with fmul row (scale_ self)) (min_ self)) X.

Definition fit_transform (X : matrix) : exn + matrix :=
  match fit X with
  | inr self => inr (transform self X)
  | inl e => inl e
  end.

Record PCA : Type := {
  n_components : nat;
  mean_ : list F;
  components_ : matrix
}.

Definition mean (c : list F) : F :=
  fdiv (fold_left fadd c f0) (of_nat (length c)).

Definition dot (a b : list F) : F := fold_left fadd (zip_with fmul a b) f0.

(** The singular value decomposition is LAPACK's: [svd_Vt M] stands for
    the rows of right singular vectors it returns for [M]. *)
Variable svd_Vt : matrix -> matrix.

(** [PCA(n_components=k).fit(X)]: the entries must be finite and [k] at
    most the number of rows and of columns; the data are centred, and
    the first [k] right singular vectors kept. *)
Definition PCA_fit (k : nat) (X : matrix) : exn + PCA :=
  if forallb (forallb finite) X && (k <=? Nat.min (length X) (ncols X))%nat
  then
    let mu := map mean (columns_of X) in
    let centred := map (fun row => zip_with fsub row mu) X in
    inr {| n_components := k; mean_ := mu;
           components_ := take k (svd_Vt centred) |}
  else inl "ValueError".

(** [transform]: [(X - mean_) @ components_.T], for finite [X] with as
    many columns as the estimator was fitted on. *)
Definition PCA_transform (self : PCA) (X : matrix) : exn + matrix :=
  if forallb (forallb finite) X
     && forallb (fun row => length row =? length (mean_ self))%nat X
  then inr (map (fun row => map (dot (zip_with fsub row (mean_ self)))
                              (components_ self)) X)
  else inl "ValueError".
End Estimators.

Arguments matrix : clear implicits.
Arguments MinMaxScaler : clear implicits.
Arguments PCA : clear implicits.

(** A float64 between 0.0 and 1.0. *)
Definition in_unit (x : float64) : bool := SFleb f0 x && SFleb x f1.

(** [check_array]: the cells of a table as a float64 matrix; text is
    refused. *)
Definition as_float (c : Clustering.scalar) : option float64 :=
  match c with Clustering.Num x => Some x | Clustering.Text _ => None end.

Definition check_array (a : Clustering.ndarray) : exn + matrix float64 :=
  match mapM (mapM as_float) a with
  | Some m => inr m
  | None => inl "ValueError"
  end.

(** [MinMaxScaler().fit_transform(X)] on a table. *)
Definition scale_table (X : Clustering.DataFrame) : exn + Clustering.ndarray :=
  match check_array (Clustering.values X) with
  | inr m =>
      match fit_transform m with
      | inr scaled => inr (map (map Clustering.Num) scaled)
      | inl e => inl e
      end
  | inl e => inl e
  end.

End Sklearn.

(* ===================================================================== *)
(** * 3-automatic-differentiation.ipynb *)
(* ===================================================================== *)

Module TF.
Import Kernel Kernel.Notations.

(** The arithmetic of a tensor's element type. *)
Class Num (T : Type) : Type := {
  zero : T;
  one : T;
  add : T -> T -> T;
  mul : T -> T -> T
}.

#[global] Instance Num_float32 : Num float32 :=
  {| zero := F32.zero; one := F32.one; add := F32.add; mul := F32.mul |}.

Section Tensors.
Context {T : Type} `{Num T}.

Definition matrix : Type := list (list T).

(** The value of a tensor of rank 0 or 2. *)
Inductive value : Type :=
| Scalar (x : T)
| Matrix (m : matrix).

(** A sum is accumulated from zero, left to right. *)
Definition sum (l : list T) : T := fold_left add l zero.
Definition dot (a b : list T) : T := sum (zip_with mul a b).

Definition ncols (m : matrix) : nat :=
  match m with [] => 0 | row :: _ => length row end.

Definition rectangular (m : matrix) : bool :=
  forallb (fun row => length row =? ncols m)%nat m.

Fixpoint transpose (m : matrix) : matrix :=
  match m with
  | [] => []
  | [row] => map (fun x => [x]) row
  | row :: rest => zip_with cons row (transpose rest)
  end.

(** [tf.matmul]: the inner dimensions must agree. *)
Definition matmul_value (a b : matrix) : exn + matrix :=
  if (ncols a =? length b)%nat
  then inr (map (fun row => map (dot row) (transpose b)) a)
  else inl "InvalidArgumentError".

(** [tf.math.reduce_sum] over all axes. *)
Definition reduce_sum_value (v : value) : T :=
  match v with
  | Scalar x => x
  | Matrix m => sum (map sum m)
  end.

Definition ones_like (v : value) : value :=
  match v with
  | Scalar _ => Scalar one
  | Matrix m => Matrix (map (map (fun _ => one)) m)
  end.

(** A scalar gradient tiled to the shape of [v]. *)
Definition tile_like (g : T) (v : value) : value :=
  match v with
  | Scalar _ => Scalar g
  | Matrix m => Matrix (map (map (fun _ => g)) m)
  end.

Definition add_value (a b : value) : value :=
  match a, b with
  | Scalar x, Scalar y => Scalar (add x y)
  | Matrix m, Matrix n => Matrix (zip_with (zip_with add) m n)
  | _, _ => a
  end.

(** ** The runtime: tensors and tapes live on a heap *)

Definition tensor : Type := nat.
Definition tape : Type := nat.

Record tensor_obj : Type := { tvalue : value; trainable : bool }.

(** An operation a tape has recorded, by the handles involved. *)
Inductive op : Type :=
| MatMulOp (a b out : tensor)
| SumOp (x out : tensor).

Record tape_obj : Type := {
  persistent : bool;
  recording : bool;
  watched : list tensor;
  ops : list op;          (* oldest first *)
  used : bool
}.

Record runtime : Type := {
  heap : gmap nat tensor_obj;
  tapes : gmap nat tape_obj;
  next : nat;
  stdout : list (option value)
}.

Definition empty_runtime : runtime :=
  {| heap := ∅; tapes := ∅; next := 0; stdout := [] |}.

Definition new_tensor (rt : runtime) (o : tensor_obj) : runtime * tensor :=
  ({| heap := <[next rt := o]> (heap rt); tapes := tapes rt;
      next := S (next rt); stdout := stdout rt |}, next rt).

Definition new_tape (rt : runtime) (t : tape_obj) : runtime * tape :=
  ({| heap := heap rt; tapes := <[next rt := t]> (tapes rt);
      next := S (next rt); stdout := stdout rt |}, next rt).

Definition with_tapes (rt : runtime) (ts : gmap nat tape_obj) : runtime :=
  {| heap := heap rt; tapes := ts; next := next rt; stdout := stdout rt |}.

Definition mem (x : nat) (l : list nat) : bool := existsb (Nat.eqb x) l.

(** A tape follows a tensor it was told to watch, a trainable variable,
    and the output of an operation it recorded. *)
Definition tracks (rt : runtime) (t : tape_obj) (x : tensor) : bool :=
  mem x (watched t)
  || match heap rt !! x with Some o => trainable o | None => false end.

(** Every recording tape that tracks an input records the operation. *)
Definition record_op (rt : runtime) (o : op) (inputs : list tensor)
           (out : tensor) : runtime :=
  with_tapes rt
    ((fun t =>
        if recording t && existsb (tracks rt t) inputs
        then {| persistent := persistent t; recording := recording t;
                watched := watched t ++ [out]; ops := ops t ++ [o];
                used := used t |}
        else t) <$> tapes rt).

(** ** Reverse accumulation *)

Definition accumulate (grads : gmap nat value) (x : tensor) (g : value)
  : gmap nat value :=
  match grads !! x with
  | None => <[x := g]> grads
  | Some g0 => <[x := add_value g0 g]> grads
  end.

(** The gradient functions of the two operations: for [sum] the
    upstream scalar tiled to the input's shape; for [matmul] the
    upstream gradient times the other factor transposed. *)
Definition backward (rt : runtime) (grads : gmap nat value) (o : op)
  : gmap nat value :=
  match o with
  | SumOp x out =>
      match grads !! out, heap rt !! x with
      | Some (Scalar g), Some xo => accumulate grads x (tile_like g (tvalue xo))
      | _, _ => grads
      end
  | MatMulOp a b out =>
      match grads !! out, heap rt !! a, heap rt !! b with
      | Some (Matrix g), Some ao, Some bo =>
          match tvalue ao, tvalue bo with
          | Matrix ma, Matrix mb =>
              match matmul_value g (transpose mb), matmul_value (transpose ma) g with
              | inr ga, inr gb =>
                  accumulate (accumulate grads a (Matrix ga)) b (Matrix gb)
              | _, _ => grads
              end
          | _, _ => grads
          end
      | _, _, _ => grads
      end
  end.

(** [tape.gradient(target, source)]: [None] when the tape does not
    connect the two. *)
Definition tape_gradient (rt : runtime) (t : tape_obj)
           (target source : tensor) : option value :=
  match heap rt !! target with
  | None => None
  | Some o =>
      let seed : gmap nat value := {[ target := ones_like (tvalue o) ]} in
      let grads := fold_left (backward rt) (rev (ops t)) seed in
      if tracks rt t source then grads !! source else None
  end.

(** ** Library calls *)

Inductive E : Type -> Type :=
| Import (module : string) : E unit
| SetEnv (key val : string) : E unit
| constant (v : matrix) : E tensor
| Variable_ (initial_value : tensor) : E tensor
| GradientTape (persistent : bool) : E tape
| watch (t : tape) (x : tensor) : E unit
| matmul (a b : tensor) : E tensor
| reduce_sum (x : tensor) : E tensor
| gradient (t : tape) (target source : tensor) : E (option value)
| print (v : option value) : E unit.

Definition tf_call {X} (ev : E X) (rt : runtime) : runtime * (exn + X) :=
  match ev in E X return runtime * (exn + X) with
  | Import _ => (rt, inr tt)
  | SetEnv _ _ => (rt, inr tt)
  | constant v =>
      if rectangular v
      then let '(rt', x) := new_tensor rt {| tvalue := Matrix v; trainable := false |}
           in (rt', inr x)
      else (rt, inl "ValueError")
  | Variable_ x0 =>
      match heap rt !! x0 with
      | Some o =>
          let '(rt', x) := new_tensor rt {| tvalue := tvalue o; trainable := true |}
          in (rt', inr x)
      | None => (rt, inl "ValueError")
      end
  | GradientTape p =>
      let '(rt', t) := new_tape rt {| persistent := p; recording := true;
                                      watched := []; ops := []; used := false |}
      in (rt', inr t)
  | watch t x =>
      match tapes rt !! t with
      | Some to =>
          (with_tapes rt
             (<[t := {| persistent := persistent to; recording := recording to;
                        watched := watched to ++ [x]; ops := ops to;
                        used := used to |}]> (tapes rt)), inr tt)
      | None => (rt, inl "ValueError")
      end
  | matmul a b =>
      match heap rt !! a, heap rt !! b with
      | Some ao, Some bo =>
          match tvalue ao, tvalue bo with
          | Matrix ma, Matrix mb =>
              match matmul_value ma mb with
              | inr m =>
                  let '(rt', out) :=
                    new_tensor rt {| tvalue := Matrix m; trainable := false |} in
                  (record_op rt' (MatMulOp a b out) [a; b] out, inr out)
              | inl e => (rt, inl e)
              end
          | _, _ => (rt, inl "InvalidArgumentError")
          end
      | _, _ => (rt, inl "ValueError")
      end
  | reduce_sum x =>
      match heap rt !! x with
      | Some xo =>
          let '(rt', out) :=
            new_tensor rt {| tvalue := Scalar (reduce_sum_value (tvalue xo));
                             trainable := false |} in
          (record_op rt' (SumOp x out) [x] out, inr out)
      | None => (rt, inl "ValueError")
      end
  | gradient t target source =>
      match tapes rt !! t with
      | Some to =>
          if used to && negb (persistent to)
          then (rt, inl "RuntimeError")
          else
            (with_tapes rt
               (<[t := {| persistent := persistent to; recording := recording to;
                          watched := watched to; ops := ops to; used := true |}]>
                  (tapes rt)),
             inr (tape_gradient rt to target source))
      | None => (rt, inl "ValueError")
      end
  | print v =>
      ({| heap := heap rt; tapes := tapes rt; next := next rt;
          stdout := stdout rt ++ [v] |}, inr tt)
  end.

(** Leaving [with tf.GradientTape(...) as tape:] stops the recording. *)
Definition tf_leave {X} (ev : E X) : X -> runtime -> runtime :=
  match ev in E X return X -> runtime -> runtime with
  | GradientTape _ => fun t rt =>
      match tapes rt !! t with
      | Some to =>
          with_tapes rt
            (<[t := {| persistent := persistent to; recording := false;
                       watched := watched to; ops := ops to; used := used to |}]>
               (tapes rt))
      | None => rt
      end
  | _ => fun _ rt => rt
  end.

Definition tf : library E runtime :=
  {| call := @tf_call; leave := @tf_leave |}.

(** ** The code cells *)

(** Lines 52-62, for tensors [u] and [v]. *)
Definition watch_cell (u v : matrix) : prog E unit :=
  U <- 52 @: lib (constant u) ;;
  V <- 53 @: lib (constant v) ;;
  r <- 55 @: With (GradientTape true)
             (fun tape =>
                56 @: lib (watch tape U) ;;;
                57 @: lib (watch tape V) ;;;
                W <- 58 @: lib (matmul U V) ;;
                f <- 59 @: lib (reduce_sum W) ;;
                Ret (tape, f))
             Ret ;;
  61 @: (dU <- lib (gradient (fst r) (snd r) U) ;; lib (print dU)) ;;;
  62 @: (dV <- lib (gradient (fst r) (snd r) V) ;; lib (print dV)).

(** Lines 79-87, for tensors [u] and [v]. *)
Definition variable_cell (u v : matrix) : prog E unit :=
  U <- 79 @: (c <- lib (constant u) ;; lib (Variable_ c)) ;;
  V <- 80 @: (c <- lib (constant v) ;; lib (Variable_ c)) ;;
  r <- 82 @: With (GradientTape true)
             (fun tape =>
                W <- 83 @: lib (matmul U V) ;;
                f <- 84 @: lib (reduce_sum W) ;;
                Ret (tape, f))
             Ret ;;
  86 @: (dU <- lib (gradient (fst r) (snd r) U) ;; lib (print dU)) ;;;
  87 @: (dV <- lib (gradient (fst r) (snd r) V) ;; lib (print dV)).

(** The arithmetic the tape does for a 1x2 [U] and a 2x2 [V]: an
    upstream row of ones times the transpose of [V], and the
    transpose of [U] times that row. *)
Definition dU (v11 v12 v21 v22 : T) : matrix :=
  [[add (add zero (mul one v11)) (mul one v12);
    add (add zero (mul one v21)) (mul one v22)]].

Definition dV (u1 u2 : T) : matrix :=
  [[add zero (mul u1 one); add zero (mul u1 one)];
   [add zero (mul u2 one); add zero (mul u2 one)]].

(** What a cell printed when run in a fresh runtime, if it finished. *)
Definition printed (p : prog E unit) : exn + list (option value) :=
  match run tf p (start empty_runtime) with
  | Done _ s => inr (stdout (world s))
  | Failed e _ => inl e
  end.
End Tensors.

Arguments matrix : clear implicits.
Arguments value : clear implicits.
Arguments E : clear implicits.
Arguments runtime : clear implicits.

(** The tensors the notebook writes: [[1., 2.]] and
    [[3., 4.], [5., 6.]], of TensorFlow's default dtype float32. *)
Definition U : matrix float32 := [[F32.of_Z 1; F32.of_Z 2]].
Definition V : matrix float32 :=
  [[F32.of_Z 3; F32.of_Z 4]; [F32.of_Z 5; F32.of_Z 6]].

(** Lines 9-12. *)
Definition setup_cell : prog (E float32) unit :=
  9 @: lib (Import "os") ;;;
  10 @: lib (SetEnv "CUDA_VISIBLE_DEVICES" "-1") ;;;
  12 @: lib (Import "tensorflow").

End TF.

(* ===================================================================== *)
(** * 3-data.ipynb *)
(* ===================================================================== *)

Module Data.
Import Kernel Kernel.Notations.

(** ** The class names *)

(** A dict display: a later binding of a key replaces an earlier one. *)
Definition dict (items : list (Z * string)) : gmap Z string :=
  fold_left (fun m kv => <[fst kv := snd kv]> m) items ∅.

(** Lines 92-103. *)
Definition labels_map : gmap Z string :=
  dict [ (0, "T-Shirt"); (1, "Trouser"); (2, "Pullover"); (3, "Dress");
         (4, "Coat"); (5, "Sandal"); (6, "Shirt"); (7, "Sneaker");
         (8, "Bag"); (9, "Ankle Boot") ]%Z.

(** ** The dataset *)

(** A grayscale image as stored: rows of pixel intensities. *)
Definition image : Type := list (list Z).

(** The image and label files of one split, as the loader reads them. *)
Record Files : Type := { data : list image; targets : list Z }.

(** The Fashion-MNIST format as the notebook describes it (lines 23-27):
    every image has 28 rows of 28 intensities between 0 and 255, and
    every image has a label, one of 10 classes counted from 0. *)
Definition pixel_ok (p : Z) : bool := (0 <=? p)%Z && (p <=? 255)%Z.

Definition image_ok (img : image) : bool :=
  (length img =? 28)%nat
  && forallb (fun row => (length row =? 28)%nat && forallb pixel_ok row) img.

Definition label_ok (y : Z) : bool := (0 <=? y)%Z && (y <=? 9)%Z.

Definition fashion_mnist_format (f : Files) : bool :=
  (length (data f) =? length (targets f))%nat
  && forallb image_ok (data f) && forallb label_ok (targets f).

(** A dataset object: the files and the two transforms. *)
Record Dataset (I L : Type) : Type := {
  files : Files;
  transform : image -> I;
  target_transform : Z -> exn + L
}.
Arguments files {I L} d.
Arguments transform {I L} d.
Arguments target_transform {I L} d.

Definition len {I L} (ds : Dataset I L) : nat := length (data (files ds)).

(** [ds[index]] *)
Definition getitem {I L} (ds : Dataset I L) (index : nat) : exn + (I * L) :=
  match data (files ds) !! index, targets (files ds) !! index with
  | Some img, Some target =>
      match target_transform ds target with
      | inr t => inr (transform ds img, t)
      | inl e => inl e
      end
  | _, _ => inl "IndexError"
  end.

(** ** Transforms *)

Definition tensor3 : Type := list (list (list float32)).

(** [ToTensor()]: one channel, intensities divided by 255. *)
Definition ToTensor (img : image) : tensor3 :=
  [map (map (fun p => SFdiv F32.prec F32.emax (F32.of_Z p) (F32.of_Z 255))) img].

(** A tensor of rank 0 to 3. *)
Inductive array : Type :=
| Rank0 (x : float32)
| Rank1 (v : list float32)
| Rank2 (m : list (list float32))
| Rank3 (t : tensor3).

(** [t.squeeze()] of a tensor of shape C x H x W: every axis of size 1
    is removed, and nothing is raised. *)
Definition squeeze (t : tensor3) : array :=
  let c := length t in
  let h := match t with plane :: _ => length plane | [] => 0 end in
  let w := match t with (row :: _) :: _ => length row | _ => 0 end in
  match (c =? 1)%nat, (h =? 1)%nat, (w =? 1)%nat with
  | true, true, true =>
      match concat (concat t) with [x] => Rank0 x | v => Rank1 v end
  | true, true, false | true, false, true | false, true, true =>
      Rank1 (concat (concat t))
  | true, false, false | false, true, false => Rank2 (concat t)
  | false, false, true => Rank2 (map (fun plane => concat plane) t)
  | false, false, false => Rank3 t
  end.

(** [torch.zeros(n, dtype=torch.float)] *)
Definition zeros (n : nat) : list float32 := replicate n F32.zero.

(** A Python int that a 64-bit integer holds. *)
Definition fits_int64 (y : Z) : bool := ((- 2 ^ 63 <=? y) && (y <? 2 ^ 63))%Z.

(** [torch.tensor(y)] for a Python int: a 64-bit integer tensor; an int
    that does not fit is refused with [ValueError]. *)
Definition tensor (y : Z) : exn + Z :=
  if fits_int64 y then inr y else inl "ValueError".

(** [self.scatter_(dim, index, value)] on a vector, for an index tensor
    holding one position: the position must exist. *)
Definition scatter_ (self : list float32) (dim : Z) (index : Z)
           (value : float32) : exn + list float32 :=
  if ((dim =? 0) || (dim =? -1))%Z then
    if ((0 <=? index) && (index <? Z.of_nat (length self)))%Z
    then inr (<[Z.to_nat index := value]> self)
    else inl "RuntimeError"
  else inl "IndexError".

(** Lines 235 and 265-266:
    [lambda y: torch.zeros(10, dtype=torch.float)
                 .scatter_(dim=0, index=torch.tensor(y), value=1)] *)
Definition target_transform_lambda (y : Z) : exn + list float32 :=
  match tensor y with
  | inr index => scatter_ (zeros 10) 0 index (F32.of_Z 1)
  | inl e => inl e
  end.

(** ** Library calls *)

Inductive E : Type -> Type :=
| Import (module : string) : E unit
| Magic (line : string) : E unit
| FashionMNIST (root : string) (train download : bool) : E Files
| plt_figure (w h : Z) : E unit
| torch_randint (high : Z) : E Z
| add_subplot (rows cols i : Z) : E unit
| plt_title (s : string) : E unit
| plt_axis (s : string) : E unit
| plt_imshow (img : array) (cmap : string) : E unit
| plt_show : E unit
| DataLoader_next (ds : Dataset tensor3 Z) (batch_size : Z) (shuffle : bool)
    : E (list tensor3 * list Z)
| print (text : string) (numbers : list Z) : E unit.

(** [labels_map[label]] *)
Definition class_name (label : Z) : exn + string :=
  match labels_map !! label with
  | Some name => inr name
  | None => inl "KeyError"
  end.

(** [training_data[i]] for a Python int, on a dataset of n samples: an
    index from -n to -1 is a position from the end; any other index is
    out of bounds, an [IndexError] when a 64-bit integer holds it and a
    [ValueError] when none does.  (A tensor has fewer than 2^63 items, so
    an index within -n .. n-1 always fits.) *)
Definition at_index {I L} (ds : Dataset I L) (i : Z) : exn + (I * L) :=
  let n := Z.of_nat (len ds) in
  if ((0 <=? i) && (i <? n))%Z then getitem ds (Z.to_nat i)
  else if ((- n <=? i) && (i <? 0))%Z then getitem ds (Z.to_nat (n + i))
  else if fits_int64 i then inl "IndexError"
  else inl "ValueError".

(** [datasets.FashionMNIST(root, train, download, transform=ToTensor())] *)
Definition open_dataset (train : bool) : prog E (Dataset tensor3 Z) :=
  f <- lib (FashionMNIST "data" train true) ;;
  Ret {| files := f; transform := ToTensor; target_transform := inr |}.

(** Lines 49-68. *)
Definition load_cell : prog E (Dataset tensor3 Z * Dataset tensor3 Z) :=
  49 @: lib (Magic "matplotlib inline") ;;;
  50 @: lib (Import "torch") ;;;
  51 @: lib (Import "torch.utils.data") ;;;
  52 @: lib (Import "torchvision") ;;;
  53 @: lib (Import "torchvision.transforms") ;;;
  54 @: lib (Import "matplotlib.pyplot") ;;;
  training_data <- 56 @: open_dataset true ;;
  test_data <- 63 @: open_dataset false ;;
  Ret (training_data, test_data).

(** Lines 107-112. *)
Definition show_body (training_data : Dataset tensor3 Z) (i : Z) (_ : unit)
  : prog E unit :=
  sample_idx <- 107 @: lib (torch_randint (Z.of_nat (len training_data))) ;;
  sample <- 108 @: lift (at_index training_data sample_idx) ;;
  109 @: lib (add_subplot 3 3 i) ;;;
  110 @: (name <- lift (class_name (snd sample)) ;; lib (plt_title name)) ;;;
  111 @: lib (plt_axis "off") ;;;
  112 @: lib (plt_imshow (squeeze (fst sample)) "gray").

(** Lines 92-113. *)
Definition show_cell (training_data : Dataset tensor3 Z) : prog E unit :=
  92 @: Ret labels_map ;;;
  104 @: lib (plt_figure 8 8) ;;;
  dims <- 105 @: Ret (3, 3)%Z ;;
  106 @: for_ (range 1 (fst dims * snd dims + 1)) (show_body training_data) tt ;;;
  113 @: lib plt_show.

(** A [DataLoader]: the dataset and how to batch it. *)
Record DataLoader : Type := {
  dataset : Dataset tensor3 Z;
  batch_size : Z;
  shuffle : bool
}.

(** Lines 148-151. *)
Definition dataloader_cell (training_data test_data : Dataset tensor3 Z)
  : prog E (DataLoader * DataLoader) :=
  148 @: lib (Import "torch.utils.data") ;;;
  train_dataloader <- 150 @: Ret {| dataset := training_data; batch_size := 64;
                                    shuffle := true |} ;;
  test_dataloader <- 151 @: Ret {| dataset := test_data; batch_size := 64;
                                   shuffle := true |} ;;
  Ret (train_dataloader, test_dataloader).

(** [t[0]] *)
Definition first {A} (t : list A) : exn + A :=
  match t with x :: _ => inr x | [] => inl "IndexError" end.

(** [t.size()] of a batch of images, by the lengths along its axes. *)
Definition size4 (t : list tensor3) : list Z :=
  map Z.of_nat
    [length t; length (concat t) / length t;
     length (concat (concat t)) / length (concat t);
     length (concat (concat (concat t))) / length (concat (concat t))].

(** Lines 175-182. *)
Definition iterate_cell (train_dataloader : DataLoader) : prog E unit :=
  batch <- 175 @: lib (DataLoader_next (dataset train_dataloader)
                         (batch_size train_dataloader)
                         (shuffle train_dataloader)) ;;
  176 @: lib (print "Feature batch shape: " (size4 (fst batch))) ;;;
  177 @: lib (print "Labels batch shape: " [Z.of_nat (length (snd batch))]) ;;;
  img <- 178 @: (t <- lift (first (fst batch)) ;; Ret (squeeze t)) ;;
  label <- 179 @: lift (first (snd batch)) ;;
  180 @: lib (plt_imshow img "gray") ;;;
  181 @: lib plt_show ;;;
  182 @: lib (print "Label: " [label]).

(** Lines 227-236. *)
Definition ds_cell : prog E (Dataset tensor3 (list float32)) :=
  227 @: lib (Import "torchvision") ;;;
  228 @: lib (Import "torchvision.transforms") ;;;
  f <- 230 @: lib (FashionMNIST "data" true true) ;;
  Ret {| files := f; transform := ToTensor;
         target_transform := target_transform_lambda |}.

(** Lines 265-266. *)
Definition transform_cell : prog E (Z -> exn + list float32) :=
  265 @: Ret target_transform_lambda.

End Data.

(* ===================================================================== *)
(** * Small libraries and inputs to run the cells on *)
(* ===================================================================== *)

Module Demo.
Import Kernel.

(** A table with the header of a seeds file and two observations. *)
Definition seeds : Clustering.DataFrame :=
  let n z := Clustering.Num (F64.of_Z z) in
  {| Clustering.columns :=
       ["area"; "perimeter"; "compactness"; "kernel_length"; "kernel_width";
        "asymmetry_coefficient"; "groove_length"; "species"];
     Clustering.rows :=
       [ [n 15; n 14; n 1; n 5; n 3; n 2; n 5; n 0];
         [n 21; n 17; n 1; n 6; n 4; n 5; n 6; n 1] ]%Z |}.

Definition seeds_features : Clustering.DataFrame :=
  {| Clustering.columns := take 6 (Clustering.columns seeds);
     Clustering.rows := map (take 6) (Clustering.rows seeds) |}.

(** Libraries that always answer; the world counts the calls made.
    The inertia reported for k clusters is 100 / k. *)
Definition sklearn_call {X} (ev : Clustering.E X) (w : nat)
  : nat * (exn + X) :=
  match ev in Clustering.E X return nat * (exn + X) with
  | Clustering.Import _ => (S w, inr tt)
  | Clustering.Magic _ => (S w, inr tt)
  | Clustering.Shell _ => (S w, inr tt)
  | Clustering.read_csv _ => (S w, inr seeds)
  | Clustering.DataFrame_sample df _ => (S w, inr df)
  | Clustering.MinMaxScaler_fit_transform X => (S w, inr (Clustering.rows X))
  | Clustering.PCA_fit self _ => (S w, inr self)
  | Clustering.PCA_transform _ X => (S w, inr (map (take 2) X))
  | Clustering.plt_scatter _ _ => (S w, inr tt)
  | Clustering.plt_plot _ _ => (S w, inr tt)
  | Clustering.plt_xlabel _ => (S w, inr tt)
  | Clustering.plt_ylabel _ => (S w, inr tt)
  | Clustering.plt_title _ => (S w, inr tt)
  | Clustering.plt_show => (S w, inr tt)
  | Clustering.KMeans_fit self _ =>
      (S w, inr {| Clustering.params := self;
                   Clustering.inertia_ :=
                     F64.of_Z (100 / Clustering.n_clusters self) |})
  end.

Definition sklearn : library Clustering.E nat :=
  {| call := @sklearn_call; leave := fun _ _ _ w => w |}.

(** The same libraries on a machine without network: [wget] fails in its
    subshell, and [read_csv] finds no file. *)
Definition offline_call {X} (ev : Clustering.E X) (w : nat)
  : nat * (exn + X) :=
  match ev in Clustering.E X return nat * (exn + X) with
  | Clustering.read_csv _ => (S w, inl "FileNotFoundError")
  | ev' => sklearn_call ev' w
  end.

Definition offline : library Clustering.E nat :=
  {| call := @offline_call; leave := fun _ _ _ w => w |}.

(** One blank image with label 3. *)
Definition blank : Data.Files :=
  {| Data.data := [replicate 28 (replicate 28 0%Z)]; Data.targets := [3%Z] |}.

End Demo.

(* ===================================================================== *)
(** * Reading the calls of a run *)
(* ===================================================================== *)

Module Observe.
Import Kernel.

(** Every library call returns (no call raises). *)
Definition answers {E W} (L : library E W) : Prop :=
  forall X (ev : E X) w, exists w' x, call L ev w = (w', inr x).

(** The part of the log that a run from [s] to [s'] added. *)
Definition added {E W} (s s' : kernel E W) : list (entry E) :=
  drop (length (log s)) (log s').

(** ** Calls of the clustering notebook *)

Definition scatter_call (en : entry Clustering.E)
  : option (list Clustering.scalar * list Clustering.scalar) :=
  match en with
  | @LCall _ T ev _ =>
      match ev with
      | Clustering.plt_scatter x y => Some (x, y)
      | _ => None
      end
  | _ => None
  end.

Definition plot_call (en : entry Clustering.E)
  : option (list Z * list float64) :=
  match en with
  | @LCall _ T ev _ =>
      match ev with
      | Clustering.plt_plot x y => Some (x, y)
      | _ => None
      end
  | _ => None
  end.

(** Where a requested label sits among the columns, if anywhere. *)
Definition located (cols : list string) (l : string) : option (list nat) :=
  match Clustering.positions l cols with [] => None | ps => Some ps end.

(** What one turn of the search loop adds to the log when its [fit]
    returns [m]. *)
Definition turn (X : Clustering.ndarray) (i : Z) (m : Clustering.FittedKMeans)
  : list (entry Clustering.E) :=
  [LStmt 108; LStmt 110;
   LCall (Clustering.KMeans_fit {| Clustering.n_clusters := i |} X) (inr m);
   LStmt 112].

(** The first two code cells run one after the other, the second on the
    variables the first one left. *)
Definition load_then_pca
  : prog Clustering.E
         (Clustering.ndarray * Clustering.PCA * Clustering.ndarray
          * Clustering.ndarray) :=
  bind Clustering.load_cell
       (fun r => Clustering.pca_cell (fst (fst r)) (snd (fst r))).

(** What an estimator was given and, for the scaler and PCA, what it
    returned, for the calls that returned. *)
Inductive feed : Type :=
| Scaled (X : Clustering.DataFrame) (out : Clustering.ndarray)
| Fitted (self : Clustering.PCA) (X : Clustering.ndarray) (out : Clustering.PCA)
| Projected (self : Clustering.PCA) (X out : Clustering.ndarray)
| Clustered (self : Clustering.KMeans) (X : Clustering.ndarray).

Definition feed_of (en : entry Clustering.E) : option feed :=
  match en with
  | @LCall _ T ev (inr r) =>
      match ev in Clustering.E T return T -> option feed with
      | Clustering.MinMaxScaler_fit_transform X => fun out => Some (Scaled X out)
      | Clustering.PCA_fit self X => fun out => Some (Fitted self X out)
      | Clustering.PCA_transform self X => fun out => Some (Projected self X out)
      | Clustering.KMeans_fit self X => fun _ => Some (Clustered self X)
      | _ => fun _ => None
      end r
  | _ => None
  end.

(** The cells that pass the features on, run in the notebook's order on
    the variables the earlier ones left: lines 22-30, 48-57, 100-119. *)
Definition feeding : prog Clustering.E (list float64) :=
  bind Clustering.load_cell
       (fun r =>
          bind (Clustering.pca_cell (fst (fst r)) (snd (fst r)))
               (fun _ => Clustering.wcss_cell (snd (fst r)))).

(** A table as [read_csv] returns it for a seeds file: distinct labels,
    at least six columns, full rows. *)
Definition seeds_table (df : Clustering.DataFrame) : Prop :=
  NoDup (Clustering.columns df)
  /\ 6 <= length (Clustering.columns df)
  /\ Forall (fun r => length r = length (Clustering.columns df))
            (Clustering.rows df).

(** The scaler is scikit-learn's, and every other call returns. *)
Definition scaler_is_sklearn {W} (L : library Clustering.E W) : Prop :=
  forall X (ev : Clustering.E X) w,
    match ev in Clustering.E T return (W * (exn + T)) -> Prop with
    | Clustering.MinMaxScaler_fit_transform table =>
        fun answer => exists w', answer = (w', Sklearn.scale_table table)
    | _ => fun answer => exists w' x, answer = (w', inr x)
    end (call L ev w).

(** Two arrays with as many rows, and row by row as many entries. *)
Definition same_shape {A B} (a : list (list A)) (b : list (list B)) : Prop :=
  Forall2 (fun r r' => length r = length r') a b.

(** Every call other than [KMeans.fit] returns. *)
Definition answers_but_fit {W} (L : library Clustering.E W) : Prop :=
  forall X (ev : Clustering.E X) w,
    match ev with
    | Clustering.KMeans_fit _ _ => True
    | _ => exists w' x, call L ev w = (w', inr x)
    end.

(** ** Calls of the data notebook *)

Definition subplot_call (en : entry Data.E) : option (Z * Z * Z) :=
  match en with
  | @LCall _ T ev _ =>
      match ev with
      | Data.add_subplot rows cols i => Some (rows, cols, i)
      | _ => None
      end
  | _ => None
  end.

Definition title_call (en : entry Data.E) : option string :=
  match en with
  | @LCall _ T ev _ =>
      match ev with
      | Data.plt_title name => Some name
      | _ => None
      end
  | _ => None
  end.

(** What [plt.imshow] was given, and the rows of it when it is an array
    of rank 2. *)
Definition shown_call (en : entry Data.E) : option Data.array :=
  match en with
  | @LCall _ T ev _ =>
      match ev with
      | Data.plt_imshow img _ => Some img
      | _ => None
      end
  | _ => None
  end.

Definition imshow_call (en : entry Data.E) : option (list (list float32)) :=
  match shown_call en with
  | Some (Data.Rank2 m) => Some m
  | _ => None
  end.

(** The dataset object that [open_dataset] builds on the files [f]. *)
Definition opened (f : Data.Files) : Data.Dataset Data.tensor3 Z :=
  {| Data.files := f; Data.transform := Data.ToTensor;
     Data.target_transform := inr |}.


(** What one turn of the drawing loop shows: a title that is a class
    name of [labels_map], over an image of 28 rows. *)
Definition class_title (name : string) : Prop :=
  exists y, (0 <= y <= 9)%Z /\ Data.labels_map !! y = Some name.

Definition print_call (en : entry Data.E) : option (string * list Z) :=
  match en with
  | @LCall _ T ev _ =>
      match ev with
      | Data.print text numbers => Some (text, numbers)
      | _ => None
      end
  | _ => None
  end.

(** ** Module files *)

(** The value under a path of keys. *)
Fixpoint at_path (ks : list string) (y : Yaml.yaml) : option Yaml.yaml :=
  match ks with
  | [] => Some y
  | k :: rest =>
      match Yaml.get k y with
      | Some v => at_path rest v
      | None => None
      end
  end.

Definition str_at (ks : list string) (y : Yaml.yaml) : option string :=
  match at_path ks y with
  | Some v => Yaml.as_str v
  | None => None
  end.

(** The identifiers of a module file hang together: the badge is the
    module's uid followed by [.badge], the metadata title is the title,
    and no two units are the same once stripped. *)
Definition consistent (y : Yaml.yaml) : bool :=
  match str_at ["uid"] y, str_at ["title"] y, Yaml.get_strs "units" y with
  | Some uid, Some title, Some units =>
      bool_decide (str_at ["badge"; "uid"] y = Some (uid ++ ".badge")%string)
      && bool_decide (str_at ["metadata"; "title"] y = Some title)
      && bool_decide (NoDup (map Yaml.lstrip units))
  | _, _, _ => false
  end.

(** ** Shapes of tensors *)

(** [m] has [a] rows of [b] entries each. *)
Definition has_shape {T} (a b : nat) (m : TF.matrix T) : Prop :=
  length m = a /\ Forall (fun row => length row = b) m.


(** A binary32 number between 0.0 and 1.0. *)
Definition in_unit (x : float32) : bool :=
  SFleb F32.zero x && SFleb x F32.one.

(** Floats are compared as data: sign, mantissa and exponent. *)
#[global] Instance spec_float_eq_dec : EqDecision spec_float.
Proof. solve_decision. Defined.

(** The number a finite float stands for. *)
Definition exact (x : spec_float) : option Q :=
  match x with
  | S754_zero _ => Some 0%Q
  | S754_finite s m e =>
      Some (Qred (inject_Z (cond_Zopp s (Z.pos m)) * (2 ^ e)))%Q
  | _ => None
  end.

End Observe.

(* ===================================================================== *)
(** * The statements and calls of the cells, in order *)
(* ===================================================================== *)

Module Script.
Import Kernel.

(** A step of a cell: the statement at a line of the notebook file
    starts, or a library function is called. *)
Inductive item : Type :=
| line (n : nat)
| calls (function : string).

Definition clustering_name {X} (ev : Clustering.E X) : string :=
  match ev with
  | Clustering.Import _ => "import"
  | Clustering.Magic _ => "%magic"
  | Clustering.Shell _ => "!shell"
  | Clustering.read_csv _ => "pd.read_csv"
  | Clustering.DataFrame_sample _ _ => "DataFrame.sample"
  | Clustering.MinMaxScaler_fit_transform _ => "MinMaxScaler.fit_transform"
  | Clustering.PCA_fit _ _ => "PCA.fit"
  | Clustering.PCA_transform _ _ => "PCA.transform"
  | Clustering.plt_scatter _ _ => "plt.scatter"
  | Clustering.plt_plot _ _ => "plt.plot"
  | Clustering.plt_xlabel _ => "plt.xlabel"
  | Clustering.plt_ylabel _ => "plt.ylabel"
  | Clustering.plt_title _ => "plt.title"
  | Clustering.plt_show => "plt.show"
  | Clustering.KMeans_fit _ _ => "KMeans.fit"
  end.

Definition data_name {X} (ev : Data.E X) : string :=
  match ev with
  | Data.Import _ => "import"
  | Data.Magic _ => "%magic"
  | Data.FashionMNIST _ _ _ => "datasets.FashionMNIST"
  | Data.plt_figure _ _ => "plt.figure"
  | Data.torch_randint _ => "torch.randint"
  | Data.add_subplot _ _ _ => "figure.add_subplot"
  | Data.plt_title _ => "plt.title"
  | Data.plt_axis _ => "plt.axis"
  | Data.plt_imshow _ _ => "plt.imshow"
  | Data.plt_show => "plt.show"
  | Data.DataLoader_next _ _ _ => "next"
  | Data.print _ _ => "print"
  end.

Definition tf_name {T X} (ev : TF.E T X) : string :=
  match ev with
  | TF.Import _ => "import"
  | TF.SetEnv _ _ => "os.environ"
  | TF.constant _ => "tf.constant"
  | TF.Variable_ _ => "tf.Variable"
  | TF.GradientTape _ => "tf.GradientTape"
  | TF.watch _ _ => "tape.watch"
  | TF.matmul _ _ => "tf.matmul"
  | TF.reduce_sum _ => "tf.math.reduce_sum"
  | TF.gradient _ _ _ => "tape.gradient"
  | TF.print _ => "print"
  end.

Section Trace.
Context {E : Type -> Type} (name : forall X, E X -> string).

Definition item_of (en : entry E) : option item :=
  match en with
  | LStmt n => Some (line n)
  | LCall ev _ => Some (calls (name _ ev))
  | _ => None
  end.

(** The statements started and the calls made, as a log has them. *)
Definition trace (l : list (entry E)) : list item := omap item_of l.

Context {W : Type}.

(** The run [o] from [s] went by the script: a run that ends normally
    did every step of it, in order; a run that ends with an exception
    did the steps up to some point of it, in order, and none after. *)
Definition follows {A} (script : list item) (s : kernel E W)
           (o : outcome E W A) : Prop :=
  match o with
  | Done _ s' => exists d, log s' = log s ++ d /\ trace d = script
  | Failed _ s' => exists d, log s' = log s ++ d /\ trace d `prefix_of` script
  end.

End Trace.

(** The body of a loop, [n] times. *)
Definition times (n : nat) (body : list item) : list item :=
  concat (replicate n body).

(** ** 01-clustering-introduction.ipynb *)

Definition load_cell : list item :=
  [line 22; calls "import"; line 25; calls "!shell";
   line 26; calls "pd.read_csv"; line 29; line 30; calls "DataFrame.sample"].

Definition pca_cell : list item :=
  [line 48; calls "import"; line 49; calls "import";
   line 52; calls "MinMaxScaler.fit_transform";
   line 55; calls "PCA.fit"; line 56; calls "PCA.transform"; line 57].

Definition scatter_cell : list item :=
  [line 73; calls "import"; line 75; calls "%magic";
   line 77; calls "plt.scatter"; line 78; calls "plt.xlabel";
   line 79; calls "plt.ylabel"; line 80; calls "plt.title";
   line 81; calls "plt.show"].

Definition wcss_cell : list item :=
  [line 100; calls "import"; line 101; calls "import";
   line 102; calls "import"; line 103; calls "%magic"; line 106; line 107]
  ++ times 10 [line 108; line 110; calls "KMeans.fit"; line 112]
  ++ [line 115; calls "plt.plot"; line 116; calls "plt.title";
      line 117; calls "plt.xlabel"; line 118; calls "plt.ylabel";
      line 119; calls "plt.show"].

(** ** 3-data.ipynb *)


Definition show_cell : list item :=
  [line 92; line 104; calls "plt.figure"; line 105; line 106]
  ++ times 9 [line 107; calls "torch.randint"; line 108;
              line 109; calls "figure.add_subplot";
              line 110; calls "plt.title"; line 111; calls "plt.axis";
              line 112; calls "plt.imshow"]
  ++ [line 113; calls "plt.show"].

Definition dataloader_cell : list item :=
  [line 148; calls "import"; line 150; line 151].

Definition iterate_cell : list item :=
  [line 175; calls "next"; line 176; calls "print"; line 177; calls "print";
   line 178; line 179; line 180; calls "plt.imshow";
   line 181; calls "plt.show"; line 182; calls "print"].

Definition ds_cell : list item :=
  [line 227; calls "import"; line 228; calls "import";
   line 230; calls "datasets.FashionMNIST"].

Definition transform_cell : list item := [line 265].

(** ** 3-automatic-differentiation.ipynb *)

Definition setup_cell : list item :=
  [line 9; calls "import"; line 10; calls "os.environ"; line 12; calls "import"].

Definition watch_cell : list item :=
  [line 52; calls "tf.constant"; line 53; calls "tf.constant";
   line 55; calls "tf.GradientTape";
   line 56; calls "tape.watch"; line 57; calls "tape.watch";
   line 58; calls "tf.matmul"; line 59; calls "tf.math.reduce_sum";
   line 61; calls "tape.gradient"; calls "print";
   line 62; calls "tape.gradient"; calls "print"].

Definition variable_cell : list item :=
  [line 79; calls "tf.constant"; calls "tf.Variable";
   line 80; calls "tf.constant"; calls "tf.Variable";
   line 82; calls "tf.GradientTape";
   line 83; calls "tf.matmul"; line 84; calls "tf.math.reduce_sum";
   line 86; calls "tape.gradient"; calls "print";
   line 87; calls "tape.gradient"; calls "print"].

End Script.

(* ===================================================================== *)
(** * More libraries and inputs to run the cells on *)
(* ===================================================================== *)

Module Cases.
Import Kernel.

(** A clustering library that refuses more clusters than there are
    observations, and otherwise answers like [Demo.sklearn]. *)
Definition strict_call {X} (ev : Clustering.E X) (w : nat) : nat * (exn + X) :=
  match ev in Clustering.E X return nat * (exn + X) with
  | Clustering.KMeans_fit self X =>
      if (Clustering.n_clusters self <=? Z.of_nat (length X))%Z
      then Demo.sklearn_call (Clustering.KMeans_fit self X) w
      else (S w, inl "ValueError")
  | ev' => Demo.sklearn_call ev' w
  end.

Definition strict : library Clustering.E nat :=
  {| call := @strict_call; leave := fun _ _ _ w => w |}.

(** A torch library that always answers: the files hold one blank
    image, [randint] returns 0, and a batch is that one sample. *)
Definition torch_call {X} (ev : Data.E X) (w : nat) : nat * (exn + X) :=
  match ev in Data.E X return nat * (exn + X) with
  | Data.Import _ => (S w, inr tt)
  | Data.Magic _ => (S w, inr tt)
  | Data.FashionMNIST _ _ _ => (S w, inr Demo.blank)
  | Data.plt_figure _ _ => (S w, inr tt)
  | Data.torch_randint _ => (S w, inr 0%Z)
  | Data.add_subplot _ _ _ => (S w, inr tt)
  | Data.plt_title _ => (S w, inr tt)
  | Data.plt_axis _ => (S w, inr tt)
  | Data.plt_imshow _ _ => (S w, inr tt)
  | Data.plt_show => (S w, inr tt)
  | Data.DataLoader_next ds _ _ =>
      (S w, inr (map (Data.transform ds) (Data.data (Data.files ds)),
                 Data.targets (Data.files ds)))
  | Data.print _ _ => (S w, inr tt)
  end.

Definition torch : library Data.E nat :=
  {| call := @torch_call; leave := fun _ _ _ w => w |}.

(** The libraries of [Demo.sklearn] with the scaler of [Sklearn]. *)
Definition scaling_call {X} (ev : Clustering.E X) (w : nat) : nat * (exn + X) :=
  match ev in Clustering.E X return nat * (exn + X) with
  | Clustering.MinMaxScaler_fit_transform X => (S w, Sklearn.scale_table X)
  | ev' => Demo.sklearn_call ev' w
  end.

Definition scaling : library Clustering.E nat :=
  {| call := @scaling_call; leave := fun _ _ _ w => w |}.

(** Two observations of six measurements, as [read_csv] parses the
    decimals 9.2, 9.06, 2.7, 8.3 and 17.25, 11.6, 5.2581, 13.689. *)
Definition decimal (n d : Z) : float64 :=
  SFdiv F64.prec F64.emax (F64.of_Z n) (F64.of_Z d).

Definition grains : Sklearn.matrix float64 :=
  [ [decimal 92 10; decimal 906 100; decimal 27 10;
     decimal 83 10; decimal 92 10; decimal 906 100];
    [decimal 1725 100; decimal 116 10; decimal 52581 10000;
     decimal 13689 1000; decimal 1725 100; decimal 116 10] ]%Z.





End Cases.

(* ===================================================================== *)
(** * Theorems *)
(* ===================================================================== *)

(** C6: every course-module YAML file of the repository is static
    metadata in the registration schema: a top-level [title] string, a
    [summary] string, a non-empty [units] list and a non-empty
    [products] list, and no node that asks the loader to execute
    anything. *)
Theorem module_files_conform :
  Forall (fun y => Yaml.conforms y = true /\ Yaml.static y = true)
         Yaml.module_files.
Proof.
  unfold Yaml.module_files.
  repeat constructor; vm_compute; reflexivity.
Qed.

(** C9: in every module file each entry of [units], once leading
    whitespace is stripped, is the module's own uid, a dot and a unit
    name; on the raw strings this fails, because one entry of one file
    starts with a space. *)
Theorem units_prefixed_after_lstrip :
  Forall (fun y => Yaml.units_ok Yaml.lstrip y = true) Yaml.module_files
  /\ ~ Forall (fun y => Yaml.units_ok (fun u => u) y = true) Yaml.module_files
  /\ exists y uid us u rest,
       In y Yaml.module_files
       /\ Yaml.get_str "uid" y = Some uid
       /\ Yaml.get_strs "units" y = Some us
       /\ In u us
       /\ u = String " " rest
       /\ Yaml.unit_of uid u = false
       /\ Yaml.unit_of uid rest = true.
Proof.
  split; [| split].
  - unfold Yaml.module_files. repeat constructor; vm_compute; reflexivity.
  - intros H. apply Forall_inv in H. vm_compute in H. discriminate H.
  - exists Yaml.part_000. eexists. eexists.
    exists " learn.azure.ai-machine-learning-fundamentals.use-cognitive-services".
    eexists.
    split; [left; reflexivity |].
    split; [vm_compute; reflexivity |].
    split; [vm_compute; reflexivity |].
    split; [simpl; tauto |].
    split; [reflexivity |].
    split; vm_compute; reflexivity.
Qed.

(* --------------------------------------------------------------------- *)
(** ** The kernel handles nothing *)
(* --------------------------------------------------------------------- *)

Section KernelFacts.
Import Kernel.
Context {E : Type -> Type} {W : Type} (L : library E W).

Lemma unhandled_after {A} (s s1 : kernel E W) (d0 : list (entry E))
      (o : outcome E W A) :
  log s1 = log s ++ d0 -> Forall succeeded d0 ->
  unhandled s1 o -> unhandled s o.
Proof.
  intros Hlog Hd0. destruct o as [a s'|e s']; simpl.
  - intros (d & -> & Hd). exists (d0 ++ d).
    rewrite Hlog, <- app_assoc. split; [reflexivity|].
    apply Forall_app; split; assumption.
  - intros (d & en & t & -> & Hd & Hen & Ht). exists (d0 ++ d), en, t.
    rewrite Hlog, <- !app_assoc. repeat split; try assumption.
    apply Forall_app; split; assumption.
Qed.

Lemma run_unhandled {A} (p : prog E A) :
  forall s, unhandled s (run L p s).
Proof.
  induction p as [A a|A e|A l k IH|A X ev k IH|A X B enter body IHb k IHk];
    intros s; simpl.
  - exists []. rewrite app_nil_r. split; constructor.
  - exists [], (LRaise e), []. repeat split; constructor.
  - apply (unhandled_after s (record s (world s) (LStmt l)) [LStmt l]);
      [reflexivity| |apply IH].
    repeat constructor.
  - destruct (call L ev (world s)) as [w [e|x]]; simpl.
    + exists [], (LCall ev (inl e)), []. repeat split; constructor.
    + apply (unhandled_after s (record s w (LCall ev (inr x))) [LCall ev (inr x)]);
        [reflexivity| |apply IH].
      repeat constructor.
  - destruct (call L enter (world s)) as [w [e|x]]; simpl.
    + exists [], (LCall enter (inl e)), []. repeat split; constructor.
    + set (s1 := record s w (LCall enter (inr x))).
      apply (unhandled_after s s1 [LCall enter (inr x)]); [reflexivity| |].
      { repeat constructor. }
      specialize (IHb x s1).
      destruct (run L (body x) s1) as [b s2|e s2]; simpl in IHb.
      * destruct IHb as (d & Hlog & Hd).
        apply (unhandled_after s1
                 (record s2 (leave L enter x (world s2)) (LExit enter))
                 (d ++ [LExit enter])); [| |apply IHk].
        { simpl. rewrite Hlog, <- app_assoc. reflexivity. }
        { apply Forall_app; split; [assumption|repeat constructor]. }
      * destruct IHb as (d & en & t & Hlog & Hd & Hen & Ht).
        simpl. exists d, en, (t ++ [LExit enter]).
        rewrite Hlog, <- !app_assoc. simpl.
        repeat split; try assumption.
        apply Forall_app; split; [assumption|repeat constructor].
Qed.
End KernelFacts.

(* --------------------------------------------------------------------- *)
(** ** Column selection in the clustering notebook *)
(* --------------------------------------------------------------------- *)

Section ColumnSelection.
Import Kernel Clustering.

Lemma positions_from_absent k (l : string) (cols : list string) :
  l ∉ cols -> positions_from k l cols = [].
Proof.
  revert k. induction cols as [|c rest IH]; intros k Hnot; [reflexivity|].
  simpl. apply not_elem_of_cons in Hnot as [Hne Hrest].
  destruct (String.eqb_spec l c) as [->|_]; [congruence|].
  simpl. apply IH, Hrest.
Qed.

Lemma positions_from_unique k (cols : list string) :
  NoDup cols ->
  forall i l, cols !! i = Some l -> positions_from k l cols = [k + i].
Proof.
  intros Hnd. revert k.
  induction Hnd as [|c rest Hc Hnd IH]; intros k i l Hi; [discriminate|].
  destruct i as [|i]; simpl in *.
  - injection Hi as ->. rewrite String.eqb_refl.
    rewrite positions_from_absent by assumption.
    simpl. f_equal. lia.
  - assert (l <> c) as Hne.
    { intros ->. apply Hc. eapply list_elem_of_lookup_2, Hi. }
    destruct (String.eqb_spec l c) as [?|_]; [congruence|].
    simpl. rewrite (IH (S k) i l Hi). f_equal. lia.
Qed.

Lemma pick_seq {A} (l : list A) n k :
  pick (seq k n) l = take n (drop k l).
Proof.
  unfold pick. revert k l. induction n as [|n IH]; intros k l; [reflexivity|].
  simpl. destruct (l !! k) as [x|] eqn:Hk.
  - rewrite IH. rewrite (drop_S l x k Hk). reflexivity.
  - rewrite IH. apply lookup_ge_None in Hk.
    rewrite !drop_ge by lia. rewrite !take_nil. reflexivity.
Qed.

Lemma select_prefix (cols : list string) n :
  NoDup cols -> n <= length cols ->
  mapM (fun l => match positions l cols with [] => None | ps => Some ps end)
       (take n cols)
  = Some (map (fun i => [i]) (seq 0 n)).
Proof.
  intros Hnd Hn. apply mapM_Some. apply Forall2_same_length_lookup.
  split; [rewrite length_take, length_map, length_seq; lia|].
  intros i l ps Hl Hps.
  apply lookup_take_Some in Hl as [Hl Hi].
  rewrite list_lookup_fmap, lookup_seq_lt in Hps by lia.
  injection Hps as <-. unfold positions.
  rewrite (positions_from_unique 0 cols Hnd i l Hl). reflexivity.
Qed.

Lemma concat_singletons n k :
  concat (map (fun i : nat => [i]) (seq k n)) = seq k n.
Proof.
  revert k. induction n as [|n IH]; intros k; [reflexivity|].
  simpl. f_equal. apply IH.
Qed.

(** Selecting a frame's own first [n] labels keeps its first [n] columns. *)
Lemma getitem_prefix (df : DataFrame) n :
  NoDup (columns df) -> n <= length (columns df) ->
  getitem df (take n (columns df))
  = inr {| columns := take n (columns df); rows := map (take n) (rows df) |}.
Proof.
  intros Hnd Hn. unfold getitem.
  rewrite (select_prefix _ n Hnd Hn), concat_singletons.
  rewrite pick_seq, drop_0. do 2 f_equal.
  apply map_ext. intros r. rewrite pick_seq, drop_0. reflexivity.
Qed.
End ColumnSelection.

(* --------------------------------------------------------------------- *)
(** ** The search over the number of clusters *)
(* --------------------------------------------------------------------- *)

Example range_1_11 : range 1 11 = [1; 2; 3; 4; 5; 6; 7; 8; 9; 10]%Z.
Proof. reflexivity. Qed.

Section ClusterSearch.
Import Kernel Clustering.
Context {W : Type} (L : library E W) (X : ndarray).


End ClusterSearch.


(* --------------------------------------------------------------------- *)
(** ** The class names and the one-hot labels of the data notebook *)
(* --------------------------------------------------------------------- *)

Section ClassNames.
Import Data.

Lemma labels_map_unfold :
  labels_map
  = <[9%Z := "Ankle Boot"]> (<[8%Z := "Bag"]> (<[7%Z := "Sneaker"]>
    (<[6%Z := "Shirt"]> (<[5%Z := "Sandal"]> (<[4%Z := "Coat"]>
    (<[3%Z := "Dress"]> (<[2%Z := "Pullover"]> (<[1%Z := "Trouser"]>
    (<[0%Z := "T-Shirt"]> ∅))))))))).
Proof. reflexivity. Qed.

Lemma labels_map_outside (k : Z) :
  (k < 0 \/ 9 < k)%Z -> labels_map !! k = None.
Proof.
  intros Hk. rewrite labels_map_unfold.
  rewrite !lookup_insert_ne by lia. apply lookup_empty.
Qed.

Lemma label_cases (k : Z) :
  (0 <= k <= 9)%Z ->
  k = 0%Z \/ k = 1%Z \/ k = 2%Z \/ k = 3%Z \/ k = 4%Z \/ k = 5%Z
  \/ k = 6%Z \/ k = 7%Z \/ k = 8%Z \/ k = 9%Z.
Proof. lia. Qed.

Lemma labels_map_domain (k : Z) :
  is_Some (labels_map !! k) <-> (0 <= k <= 9)%Z.
Proof.
  split.
  - intros Hsome.
    destruct (Z_lt_ge_dec k 0) as [Hlt|Hge];
      [rewrite labels_map_outside in Hsome by lia;
       apply is_Some_None in Hsome; contradiction|].
    destruct (Z_lt_ge_dec 9 k) as [Hgt|Hle];
      [rewrite labels_map_outside in Hsome by lia;
       apply is_Some_None in Hsome; contradiction|].
    lia.
  - intros Hk. apply label_cases in Hk.
    repeat (destruct Hk as [->|Hk]; [vm_compute; eauto|]).
    subst k. vm_compute. eauto.
Qed.

End ClassNames.

(** C8: for a label y in 0..9 the [target_transform] lambda returns the
    one-hot vector of y: ten float entries, 1.0 at index y and 0.0
    elsewhere, whose sum is 1.0. *)
Theorem target_transform_one_hot (y : Z) :
  (0 <= y <= 9)%Z ->
  exists v,
    Data.target_transform_lambda y = inr v
    /\ length v = 10
    /\ (forall j, j < 10 ->
          v !! j = Some (if (j =? Z.to_nat y)%nat then F32.one else F32.zero))
    /\ F32.sum v = F32.one.
Proof.
  intros Hy. apply label_cases in Hy.
  repeat (destruct Hy as [->|Hy]); subst;
    (eexists; split; [vm_compute; reflexivity|];
     split; [reflexivity|]; split;
     [intros j Hj;
      do 10 (destruct j as [|j]; [vm_compute; reflexivity|]); lia
     |vm_compute; reflexivity]).
Qed.

(* --------------------------------------------------------------------- *)
(** ** The gradients of the automatic-differentiation notebook *)
(* --------------------------------------------------------------------- *)

Section Gradients.
Import TF.
Context {T : Type} `{Num T}.


End Gradients.






(* --------------------------------------------------------------------- *)
(** ** Exceptions in the notebooks *)
(* --------------------------------------------------------------------- *)

(** Without network the loading cell stops at [read_csv] with its
    exception: lines 22, 25 and 26 started, lines 29 and 30 did not. *)
Example load_cell_offline :
  exists s',
    Kernel.run Demo.offline Clustering.load_cell (Kernel.start 0)
    = Kernel.Failed "FileNotFoundError" s'
    /\ Kernel.lines (Kernel.log s') = [22; 25; 26].
Proof. eexists. split; reflexivity. Qed.

(* --------------------------------------------------------------------- *)
(** ** Instances *)
(* --------------------------------------------------------------------- *)


Lemma target_transform_one_hot_witness :
  exists v,
    Data.target_transform_lambda 3 = inr v
    /\ length v = 10
    /\ (forall j, j < 10 ->
          v !! j = Some (if (j =? Z.to_nat 3)%nat then F32.one else F32.zero))
    /\ F32.sum v = F32.one.
Proof. apply (target_transform_one_hot 3). lia. Defined.

(* ===================================================================== *)
(** * Further properties of the notebooks' code *)
(* ===================================================================== *)

(* --------------------------------------------------------------------- *)
(** ** Selecting columns by label *)
(* --------------------------------------------------------------------- *)

Section LabelSelection.
Import Kernel Clustering Observe.

Lemma positions_from_spec (cols : list string) k l p :
  p ∈ positions_from k l cols <-> exists i, p = k + i /\ cols !! i = Some l.
Proof.
  revert k. induction cols as [|c rest IH]; intros k; simpl.
  - split; [intros Hp; inversion Hp|intros (i & _ & Hi); discriminate].
  - rewrite elem_of_app, IH. split.
    + intros [Hp|(i & -> & Hi)].
      * destruct (String.eqb_spec l c) as [->|_]; [|inversion Hp].
        apply list_elem_of_singleton in Hp as ->. exists 0. split; [lia|reflexivity].
      * exists (S i). split; [lia|exact Hi].
    + intros ([|i] & -> & Hi); simpl in Hi.
      * injection Hi as ->. left. rewrite String.eqb_refl.
        apply list_elem_of_singleton. lia.
      * right. exists i. split; [lia|exact Hi].
Qed.

Lemma positions_nil (cols : list string) l :
  positions l cols = [] <-> l ∉ cols.
Proof.
  unfold positions. split.
  - intros Hnil Hin. apply list_elem_of_lookup in Hin as [i Hi].
    assert (0 + i ∈ positions_from 0 l cols) as Hp
      by (apply positions_from_spec; eauto).
    rewrite Hnil in Hp. inversion Hp.
  - intros Hnot. destruct (positions_from 0 l cols) as [|p ps] eqn:Hps; [reflexivity|].
    exfalso. apply Hnot.
    assert (p ∈ positions_from 0 l cols) as Hp by (rewrite Hps; left).
    apply positions_from_spec in Hp as (i & _ & Hi).
    eapply list_elem_of_lookup_2, Hi.
Qed.

Lemma located_None cols l : located cols l = None <-> l ∉ cols.
Proof.
  unfold located. rewrite <- positions_nil.
  destruct (positions l cols); split; congruence.
Qed.

Lemma getitem_located df labels :
  getitem df labels
  = match mapM (located (columns df)) labels with
    | None => inl "KeyError"
    | Some pss =>
        inr {| columns := pick (concat pss) (columns df);
               rows := map (pick (concat pss)) (rows df) |}
    end.
Proof. reflexivity. Qed.

Lemma pick_lookup {A} (l : list A) ps j :
  Forall (fun p => p < length l) ps ->
  pick ps l !! j = ps !! j ≫= (fun p => l !! p).
Proof.
  unfold pick. intros Hps. revert j.
  induction Hps as [|p ps Hp Hps IH]; intros j; [reflexivity|].
  simpl. destruct (lookup_lt_is_Some_2 l p Hp) as [x Hx]. rewrite Hx.
  destruct j as [|j]; simpl; [rewrite Hx; reflexivity|apply IH].
Qed.

Lemma pick_length {A} (l : list A) ps :
  Forall (fun p => p < length l) ps -> length (pick ps l) = length ps.
Proof.
  unfold pick. induction 1 as [|p ps Hp _ IH]; [reflexivity|].
  simpl. destruct (lookup_lt_is_Some_2 l p Hp) as [x ->]. simpl. f_equal. exact IH.
Qed.

Lemma concat_singletons_list (ps : list nat) :
  concat (map (fun p => [p]) ps) = ps.
Proof. induction ps as [|p ps IH]; [reflexivity|]. simpl. f_equal. exact IH. Qed.

(** With distinct labels every requested label is found at one place. *)
Lemma located_unique cols labels pss :
  NoDup cols -> mapM (located cols) labels = Some pss ->
  exists ps, pss = map (fun p => [p]) ps
             /\ Forall2 (fun l p => cols !! p = Some l) labels ps.
Proof.
  intros Hnd Hm. apply mapM_Some in Hm.
  induction Hm as [|l qs labels pss Hl _ IH].
  - exists []. split; constructor.
  - destruct IH as (ps & -> & Hps).
    assert (l ∈ cols) as Hin.
    { destruct (decide (l ∈ cols)) as [?|Hnot]; [assumption|].
      apply located_None in Hnot. congruence. }
    apply list_elem_of_lookup in Hin as [i Hi].
    unfold located, positions in Hl.
    rewrite (positions_from_unique 0 cols Hnd i l Hi) in Hl.
    injection Hl as <-. exists (i :: ps). split; [reflexivity|].
    constructor; assumption.
Qed.
End LabelSelection.

(** X1: [df[labels]] raises [KeyError] exactly when some requested label
    names no column of the frame. *)
Theorem getitem_KeyError_iff_missing
    (df : Clustering.DataFrame) (labels : list string) :
  (Clustering.getitem df labels = inl "KeyError"
   <-> exists l, l ∈ labels /\ l ∉ Clustering.columns df)
  /\ (forall e, Clustering.getitem df labels = inl e -> e = "KeyError").
Proof.
  rewrite getitem_located. split.
  - destruct (mapM _ labels) as [pss|] eqn:Hm.
    + split; [discriminate|].
      intros (l & Hl & Hnot). exfalso.
      apply mapM_Some_1 in Hm.
      apply list_elem_of_lookup in Hl as [i Hi].
      destruct (Forall2_lookup_l _ _ _ _ _ Hm Hi) as (ps & _ & Hps).
      apply located_None in Hnot. congruence.
    + split; [|reflexivity]. intros _.
      apply mapM_None_1, Exists_exists in Hm as (l & Hl & Hnone).
      exists l. split; [exact Hl|]. apply located_None, Hnone.
  - intros e. destruct (mapM _ labels); congruence.
Qed.

(** X2: on a frame with distinct labels, [df[labels]] has exactly the
    requested labels as its columns, in the requested order, one row per
    row of [df], and under each label the cell that [df] has under it. *)
Theorem getitem_keeps_cells
    (df r : Clustering.DataFrame) (labels : list string) :
  NoDup (Clustering.columns df) ->
  Forall (fun row => length row = length (Clustering.columns df))
         (Clustering.rows df) ->
  Clustering.getitem df labels = inr r ->
  Clustering.columns r = labels
  /\ length (Clustering.rows r) = length (Clustering.rows df)
  /\ forall i row row' j l p,
       Clustering.rows df !! i = Some row ->
       Clustering.rows r !! i = Some row' ->
       labels !! j = Some l ->
       Clustering.columns df !! p = Some l ->
       length row' = length labels /\ row' !! j = row !! p.
Proof.
  intros Hnd Hfull. rewrite getitem_located.
  destruct (mapM _ labels) as [pss|] eqn:Hm; [|discriminate].
  intros [= <-]. simpl.
  destruct (located_unique _ _ _ Hnd Hm) as (ps & -> & Hps).
  rewrite concat_singletons_list.
  assert (Forall (fun p => p < length (Clustering.columns df)) ps) as Hlt.
  { clear -Hps. induction Hps as [|l p ? ? Hp _ IH]; constructor; [|exact IH].
    eapply lookup_lt_Some, Hp. }
  split.
  { apply list_eq. intros j. rewrite (pick_lookup _ _ _ Hlt).
    destruct (labels !! j) as [l|] eqn:Hl.
    - destruct (Forall2_lookup_l _ _ _ _ _ Hps Hl) as (p & -> & Hp). exact Hp.
    - apply Forall2_length in Hps.
      apply lookup_ge_None in Hl.
      rewrite (proj2 (lookup_ge_None ps j)) by lia. reflexivity. }
  split; [apply length_map|].
  intros i row row' j l p Hrow Hrow' Hl Hp.
  rewrite list_lookup_fmap, Hrow in Hrow'. injection Hrow' as <-.
  assert (length row = length (Clustering.columns df)) as Hlen.
  { eapply Forall_lookup_1 in Hfull; [exact Hfull|exact Hrow]. }
  assert (Forall (fun p => p < length row) ps) as Hlt' by (rewrite Hlen; exact Hlt).
  split.
  - rewrite (pick_length _ _ Hlt'). symmetry. eapply Forall2_length, Hps.
  - rewrite (pick_lookup _ _ _ Hlt').
    destruct (Forall2_lookup_l _ _ _ _ _ Hps Hl) as (q & -> & Hq). simpl.
    assert (q = p) as ->; [|reflexivity].
    eapply NoDup_lookup; eauto.
Qed.

Section SelectionOfOwnLabels.
Import Kernel Clustering Observe.

Lemma located_is_Some cols l : is_Some (located cols l) <-> l ∈ cols.
Proof.
  destruct (located cols l) as [ps|] eqn:Hl.
  - split; [intros _|eauto].
    destruct (decide (l ∈ cols)) as [?|Hnot]; [assumption|].
    apply located_None in Hnot. congruence.
  - split; [intros [? ?]; discriminate|].
    intros Hin. apply located_None in Hl. contradiction.
Qed.

Lemma getitem_present df labels :
  Forall (fun l => l ∈ columns df) labels ->
  exists pss,
    mapM (located (columns df)) labels = Some pss
    /\ getitem df labels
       = inr {| columns := pick (concat pss) (columns df);
                rows := map (pick (concat pss)) (rows df) |}.
Proof.
  intros Hall.
  destruct (mapM_is_Some_2 (located (columns df)) labels) as [pss Hpss].
  { eapply Forall_impl; [exact Hall|]. intros l Hl. apply located_is_Some, Hl. }
  exists pss. split; [exact Hpss|]. rewrite getitem_located, Hpss. reflexivity.
Qed.

(** Every requested label is a label of the selection. *)
Lemma selected_labels_present cols labels pss :
  mapM (located cols) labels = Some pss ->
  Forall (fun l => l ∈ pick (concat pss) cols) labels.
Proof.
  intros Hm. apply mapM_Some_1 in Hm. apply Forall_forall. intros l Hl.
  apply list_elem_of_lookup in Hl as [i Hi].
  destruct (Forall2_lookup_l _ _ _ _ _ Hm Hi) as (ps & Hps & Hloc).
  unfold located in Hloc.
  destruct (positions l cols) as [|p ps'] eqn:Hpos; [discriminate|].
  injection Hloc as <-.
  assert (p ∈ positions_from 0 l cols) as Hp by (unfold positions in Hpos; rewrite Hpos; left).
  apply positions_from_spec in Hp as (k & -> & Hk).
  unfold pick. apply list_elem_of_omap. exists (0 + k). split; [|exact Hk].
  apply list_elem_of_In, in_concat. exists (0 + k :: ps').
  split; [|left; reflexivity].
  eapply list_elem_of_In, list_elem_of_lookup_2, Hps.
Qed.
End SelectionOfOwnLabels.

Lemma selections_defined (data : Clustering.DataFrame) :
  exists features X,
    Clustering.features_of data = inr features
    /\ Clustering.getitem features (slice 0 6 (Clustering.columns data)) = inr X.
Proof.
  unfold Clustering.features_of, slice. simpl. rewrite drop_0.
  destruct (getitem_present data (take 6 (Clustering.columns data)))
    as (pss & Hpss & Hget).
  { apply Forall_forall. intros l Hl.
    eapply elem_of_sublist; [exact Hl|apply sublist_take]. }
  rewrite Hget.
  set (features := {| Clustering.columns := _; Clustering.rows := _ |}).
  destruct (getitem_present features (take 6 (Clustering.columns data)))
    as (qss & _ & Hget').
  { apply (selected_labels_present _ _ _ Hpss). }
  eauto.
Qed.

Lemma features_of_prefix (data : Clustering.DataFrame) :
  NoDup (Clustering.columns data) ->
  let n := Nat.min 6 (length (Clustering.columns data)) in
  Clustering.features_of data
  = inr {| Clustering.columns := take n (Clustering.columns data);
           Clustering.rows := map (take n) (Clustering.rows data) |}.
Proof.
  intros Hnd n.
  unfold Clustering.features_of, slice. simpl. rewrite drop_0.
  replace (take 6 (Clustering.columns data))
    with (take n (Clustering.columns data)).
  - apply (getitem_prefix data n Hnd). lia.
  - destruct (Nat.le_gt_cases 6 (length (Clustering.columns data))).
    + unfold n. rewrite Nat.min_l by lia. reflexivity.
    + rewrite !take_ge by lia. reflexivity.
Qed.

Lemma take_six_min {A} (l : list A) :
  take 6 l = take (Nat.min 6 (length l)) l.
Proof.
  destruct (Nat.le_gt_cases 6 (length l)).
  - rewrite Nat.min_l by lia. reflexivity.
  - rewrite !take_ge by lia. reflexivity.
Qed.

(** Selecting from a prefix of a table the labels of that prefix changes
    nothing. *)
Lemma reselect_prefix (data : Clustering.DataFrame) n :
  NoDup (Clustering.columns data) -> n <= length (Clustering.columns data) ->
  Clustering.getitem
    {| Clustering.columns := take n (Clustering.columns data);
       Clustering.rows := map (take n) (Clustering.rows data) |}
    (take n (Clustering.columns data))
  = inr {| Clustering.columns := take n (Clustering.columns data);
           Clustering.rows := map (take n) (Clustering.rows data) |}.
Proof.
  intros Hnd Hn.
  set (f := {| Clustering.columns := take n (Clustering.columns data);
               Clustering.rows := map (take n) (Clustering.rows data) |}).
  assert (take n (Clustering.columns data) = take n (Clustering.columns f)) as ->.
  { simpl. rewrite take_take. f_equal. lia. }
  rewrite getitem_prefix.
  - unfold f. simpl. f_equal. f_equal.
    + rewrite take_take. f_equal. lia.
    + rewrite map_map. apply map_ext. intros r. rewrite take_take. f_equal. lia.
  - simpl. eapply sublist_NoDup; [exact Hnd|apply sublist_take].
  - simpl. rewrite length_take. lia.
Qed.

(** X3: the two column selections of the clustering notebook (line 29,
    [data[data.columns[0:6]]], and line 52, [features[data.columns[0:6]]])
    never raise, whatever table was loaded: also with fewer than six
    columns or with repeated labels. *)
Theorem column_selections_never_raise (data : Clustering.DataFrame) :
  exists features X,
    Clustering.features_of data = inr features
    /\ Clustering.getitem features (slice 0 6 (Clustering.columns data)) = inr X.
Proof. exact (selections_defined data). Qed.

(** X4: on a table with distinct labels, line 29 keeps the first six
    columns when there are six, and all of them when there are fewer. *)
Theorem features_of_short_table (data : Clustering.DataFrame) :
  NoDup (Clustering.columns data) ->
  let n := Nat.min 6 (length (Clustering.columns data)) in
  Clustering.features_of data
  = inr {| Clustering.columns := take n (Clustering.columns data);
           Clustering.rows := map (take n) (Clustering.rows data) |}
  /\ (length (Clustering.columns data) <= 6 ->
      take n (Clustering.columns data) = Clustering.columns data).
Proof.
  intros Hnd n. split; [apply (features_of_prefix data Hnd)|].
  intros Hle. apply take_ge. lia.
Qed.

(* --------------------------------------------------------------------- *)
(** ** Running cells step by step *)
(* --------------------------------------------------------------------- *)

Section Stepping.
Import Kernel Observe.
Context {E : Type -> Type} {W : Type} (L : library E W).

Lemma run_bind {A B} (p : prog E A) (f : A -> prog E B) :
  forall s,
    run L (bind p f) s
    = match run L p s with
      | Done a s1 => run L (f a) s1
      | Failed e s1 => Failed e s1
      end.
Proof.
  induction p as [A a|A e|A l k IH|A X ev k IH|A X C enter body IHb k IHk];
    intros s; simpl.
  - reflexivity.
  - reflexivity.
  - apply IH.
  - destruct (call L ev (world s)) as [w [e|x]]; [reflexivity|apply IH].
  - destruct (call L enter (world s)) as [w [e|x]]; [reflexivity|].
    destruct (run L (body x) _) as [b s2|e s2]; [apply IHk|reflexivity].
Qed.

Lemma run_stmt {A} l (k : prog E A) s :
  run L (Stmt l k) s = run L k (record s (world s) (LStmt l)).
Proof. reflexivity. Qed.

Lemma run_lib_returns {X} (ev : E X) s w x :
  call L ev (world s) = (w, inr x) ->
  run L (lib ev) s = Done x (record s w (LCall ev (inr x))).
Proof. intros Hc. simpl. rewrite Hc. reflexivity. Qed.

Lemma run_lib_raises {X} (ev : E X) s w e :
  call L ev (world s) = (w, inl e) ->
  run L (lib ev) s = Failed e (record s w (LCall ev (inl e))).
Proof. intros Hc. simpl. rewrite Hc. reflexivity. Qed.

Lemma run_lift_inr {A} (a : A) s : run L (lift (inr a)) s = Done a s.
Proof. reflexivity. Qed.

Lemma run_lift_inl {A} e s :
  run L (lift (A:=A) (inl e)) s = Failed e (record s (world s) (LRaise e)).
Proof. reflexivity. Qed.

Lemma run_ret {A} (a : A) s : run L (Ret a) s = Done a s.
Proof. reflexivity. Qed.

Lemma added_app (s s' : kernel E W) d : log s' = log s ++ d -> added s s' = d.
Proof. intros Hlog. unfold added. rewrite Hlog. apply drop_app_length. Qed.
End Stepping.

(** One step of a run: a statement start, or a call that the library
    answers. *)
Ltac step Hans :=
  first
    [ rewrite run_bind
    | rewrite run_stmt
    | rewrite run_ret
    | rewrite run_lift_inr
    | match goal with
      | |- context [@Kernel.run _ _ ?L ?X (Kernel.lib ?ev) ?s] =>
          let w := fresh "w" in
          let x := fresh "x" in
          let Hc := fresh "Hc" in
          destruct (Hans X ev (Kernel.world s)) as (w & x & Hc);
          rewrite (@run_lib_returns _ _ L X ev s w x Hc);
          cbn [Kernel.world Kernel.record] in Hc
      end ];
  cbn [Kernel.world Kernel.record Kernel.log].

Ltac steps Hans := repeat step Hans.

(** The log that a finished run added, read off its final state. *)
Ltac read_log :=
  unfold Observe.added; cbn [Kernel.log Kernel.record];
  rewrite <- ?app_assoc, ?drop_app_length; cbn [app].

(* --------------------------------------------------------------------- *)
(** ** Runs go by the script of their cell *)
(* --------------------------------------------------------------------- *)

Section Scripts.
Import Kernel Script.
Context {E : Type -> Type} {W : Type} (L : library E W).
Context (name : forall X, E X -> string).

Lemma trace_app (l1 l2 : list (entry E)) :
  trace name (l1 ++ l2) = trace name l1 ++ trace name l2.
Proof. apply omap_app. Qed.

Lemma follows_eq {A} (S S' : list item) s (o : outcome E W A) :
  follows name S' s o -> S' = S -> follows name S s o.
Proof. intros Ho <-. exact Ho. Qed.

(** A run that starts after the entries [d0]. *)
Lemma follows_after {A} (s s1 : kernel E W) d0 S (o : outcome E W A) :
  log s1 = log s ++ d0 ->
  follows name S s1 o -> follows name (trace name d0 ++ S) s o.
Proof.
  intros Hlog. destruct o as [a s'|e s']; simpl; intros (d & Hd & HS);
    exists (d0 ++ d); rewrite Hd, Hlog, <- app_assoc, trace_app;
    (split; [reflexivity|]).
  - rewrite HS. reflexivity.
  - apply prefix_app, HS.
Qed.

Lemma follows_ret {A} (a : A) s : follows name [] s (run L (Ret a) s).
Proof. exists []. rewrite app_nil_r. split; reflexivity. Qed.

Lemma follows_lift {A} (r : exn + A) s : follows name [] s (run L (lift r) s).
Proof.
  destruct r as [e|a]; simpl.
  - exists [LRaise e]. split; reflexivity.
  - exists []. rewrite app_nil_r. split; reflexivity.
Qed.

Lemma follows_lib {X} (ev : E X) n s :
  name X ev = n -> follows name [calls n] s (run L (lib ev) s).
Proof.
  intros <-. simpl. destruct (call L ev (world s)) as [w [e|x]]; simpl.
  - exists [LCall ev (inl e)]. split; reflexivity.
  - exists [LCall ev (inr x)]. split; reflexivity.
Qed.

Lemma follows_stmt {A} l (k : prog E A) S s :
  (forall s1, follows name S s1 (run L k s1)) ->
  follows name (line l :: S) s (run L (Stmt l k) s).
Proof.
  intros Hk. simpl.
  apply (follows_after s (record s (world s) (LStmt l)) [LStmt l]);
    [reflexivity|apply Hk].
Qed.

Lemma follows_bind {A B} (p : prog E A) (f : A -> prog E B) SA SB s :
  (forall s0, follows name SA s0 (run L p s0)) ->
  (forall a s1, follows name SB s1 (run L (f a) s1)) ->
  follows name (SA ++ SB) s (run L (bind p f) s).
Proof.
  intros Hp Hf. rewrite run_bind. specialize (Hp s).
  destruct (run L p s) as [a s1|e s1]; simpl in Hp.
  - destruct Hp as (d & Hd & <-).
    apply (follows_after s s1 d); [exact Hd|apply Hf].
  - destruct Hp as (d & Hd & HS). exists d. split; [exact Hd|].
    apply prefix_app_r, HS.
Qed.

(** [x = v] followed by statements that depend on [x]. *)
Lemma follows_bind_ret {A B} l (v : A) (f : A -> prog E B) S s :
  (forall s1, follows name S s1 (run L (f v) s1)) ->
  follows name (line l :: S) s (run L (bind (Stmt l (Ret v)) f) s).
Proof.
  intros Hf. rewrite run_bind, run_stmt, run_ret.
  apply (follows_after s (record s (world s) (LStmt l)) [LStmt l]);
    [reflexivity|apply Hf].
Qed.

Lemma follows_for {S} (body : Z -> S -> prog E S) SB :
  (forall i acc s, follows name SB s (run L (body i acc) s)) ->
  forall cs acc s,
    follows name (times (length cs) SB) s (run L (for_ cs body acc) s).
Proof.
  intros Hbody. induction cs as [|i cs IH]; intros acc s.
  - apply follows_ret.
  - cbn [for_ length]. unfold times. cbn [replicate concat].
    apply follows_bind; [intros s0; apply Hbody|intros a s1; apply IH].
Qed.

Lemma follows_with {A X B} (enter : E X) (body : X -> prog E B)
      (k : B -> prog E A) n SB SK s :
  name X enter = n ->
  (forall x s1, follows name SB s1 (run L (body x) s1)) ->
  (forall b s2, follows name SK s2 (run L (k b) s2)) ->
  follows name (calls n :: SB ++ SK) s (run L (With enter body k) s).
Proof.
  intros <- Hbody Hk. simpl.
  destruct (call L enter (world s)) as [w [e|x]]; simpl.
  - exists [LCall enter (inl e)]. split; [reflexivity|].
    apply prefix_cons, prefix_nil.
  - set (s1 := record s w (LCall enter (inr x))).
    apply (follows_after s s1 [LCall enter (inr x)] (SB ++ SK)); [reflexivity|].
    specialize (Hbody x s1).
    destruct (run L (body x) s1) as [b s2|e s2]; simpl in Hbody.
    + destruct Hbody as (d & Hd & <-).
      pose proof (follows_after s1
                    (record s2 (leave L enter x (world s2)) (LExit enter))
                    (d ++ [LExit enter]) SK (run L (k b) _)
                    ltac:(simpl; rewrite Hd, <- app_assoc; reflexivity)
                    (Hk b _)) as Hrun.
      rewrite trace_app in Hrun.
      change (trace name [LExit enter]) with (@nil item) in Hrun.
      rewrite app_nil_r in Hrun. exact Hrun.
    + destruct Hbody as (d & Hd & HS). exists (d ++ [LExit enter]).
      split; [simpl; rewrite Hd, <- app_assoc; reflexivity|].
      rewrite trace_app.
      change (trace name [LExit enter]) with (@nil item).
      rewrite app_nil_r. apply prefix_app_r, HS.
Qed.
End Scripts.

(** The head of an application. *)
Ltac head_of t :=
  lazymatch t with
  | ?f _ => head_of f
  | _ => t
  end.

(** Reads the script of a program off its statements. *)
Ltac called :=
  cbv [Script.clustering_name Script.data_name Script.tf_name]; reflexivity.

Ltac script :=
  lazymatch goal with
  | |- Script.follows _ _ _ (Kernel.run _ (Kernel.bind (Kernel.Stmt _ (Kernel.Ret _)) _) _) =>
      eapply follows_bind_ret; intros; cbv beta; script
  | |- Script.follows _ _ _ (Kernel.run _ (Kernel.bind _ _) _) =>
      eapply follows_bind; [intros; script|intros; script]
  | |- Script.follows _ _ _ (Kernel.run _ (Kernel.Stmt _ _) _) =>
      eapply follows_stmt; intros; script
  | |- Script.follows _ _ _ (Kernel.run _ (Kernel.lib _) _) =>
      eapply follows_lib; called
  | |- Script.follows _ _ _ (Kernel.run _ (Kernel.lift _) _) =>
      eapply follows_lift
  | |- Script.follows _ _ _ (Kernel.run _ (Kernel.Ret _) _) =>
      eapply follows_ret
  | |- Script.follows _ _ _ (Kernel.run _ (Kernel.for_ _ _ _) _) =>
      eapply follows_for; intros; script
  | |- Script.follows _ _ _ (Kernel.run _ (Kernel.With _ _ _) _) =>
      eapply follows_with; [called|intros; script|intros; script]
  | |- Script.follows _ _ _ (Kernel.run _ ?p _) =>
      let h := head_of p in unfold h; script
  end.

(** A cell handles nothing and goes by its script, whatever the
    libraries answer. *)
Ltac by_script :=
  split; [apply run_unhandled|eapply follows_eq; [script|reflexivity]].


(* --------------------------------------------------------------------- *)
(** ** The scaler and the principal components *)
(* --------------------------------------------------------------------- *)

Section ScalerShape.
Import Sklearn Observe.
Context {F : Type} `{Arith F}.

Lemma shape_width n d (X : matrix F) :
  has_shape n d X -> 1 <= n -> ncols X = d.
Proof.
  intros [Hlen Hrows] Hn. destruct X as [|row X]; simpl in *; [lia|].
  apply Forall_inv in Hrows. exact Hrows.
Qed.

Lemma columns_of_length (X : matrix F) : length (columns_of X) = ncols X.
Proof. unfold columns_of. rewrite length_map, length_seq. reflexivity. Qed.

(** What [fit] computes on a matrix it accepts. *)
Lemma fit_defined n d (X : matrix F) :
  1 <= n -> 1 <= d -> has_shape n d X ->
  existsb (existsb is_inf) X = false ->
  exists self,
    fit X = inr self
    /\ length (scale_ self) = d /\ length (min_ self) = d
    /\ scale_ self
       = map (fun c => fdiv (fsub f1 f0)
                         (handle_zeros_in_scale
                            (fsub (reduce fmax c) (reduce fmin c))))
             (columns_of X)
    /\ min_ self
       = zip_with (fun c s => fsub f0 (fmul (reduce fmin c) s))
                  (columns_of X) (scale_ self).
Proof.
  intros Hn Hd HX Hinf. pose proof (shape_width n d X HX Hn) as Hw.
  unfold fit. rewrite (proj1 HX), Hw, Hinf.
  destruct n as [|n]; [lia|]. destruct d as [|d]; [lia|]. simpl.
  eexists. split; [reflexivity|]. simpl.
  repeat (rewrite length_map || rewrite length_zip_with).
  rewrite columns_of_length, Hw.
  split; [lia|]. split; [lia|]. split.
  - rewrite zip_with_fmap_l, zip_with_fmap_r, zip_with_diag, <- list_fmap_compose.
    reflexivity.
  - rewrite zip_with_fmap_l. reflexivity.
Qed.

(** [fit] accepts a matrix only if it has a row, a column and no
    infinite entry. *)
Lemma fit_accepts (X : matrix F) self :
  fit X = inr self ->
  1 <= length X /\ 1 <= ncols X /\ existsb (existsb is_inf) X = false.
Proof.
  unfold fit. intros Hfit.
  destruct (length X) as [|n] eqn:Hn; [discriminate Hfit|].
  destruct (ncols X) as [|d] eqn:Hd; [discriminate Hfit|].
  simpl in Hfit.
  destruct (existsb (existsb is_inf) X); [discriminate Hfit|].
  repeat split; lia.
Qed.

Lemma transform_shape n d (self : MinMaxScaler F) (X : matrix F) :
  has_shape n d X -> length (scale_ self) = d -> length (min_ self) = d ->
  has_shape n d (transform self X).
Proof.
  intros [Hlen Hrows] Hs Hm. unfold transform.
  split; [rewrite length_map; exact Hlen|].
  apply Forall_map. eapply Forall_impl; [exact Hrows|].
  intros row Hrow. simpl in *. rewrite !length_zip_with. lia.
Qed.

Lemma fit_transform_shape n d (X : matrix F) :
  1 <= n -> 1 <= d -> has_shape n d X ->
  existsb (existsb is_inf) X = false ->
  exists scaled, fit_transform X = inr scaled /\ has_shape n d scaled.
Proof.
  intros Hn Hd HX Hinf.
  destruct (fit_defined n d X Hn Hd HX Hinf) as (self & Hfit & Hls & Hlm & _).
  unfold fit_transform. rewrite Hfit. eexists. split; [reflexivity|].
  exact (transform_shape n d self X HX Hls Hlm).
Qed.

Variable svd_Vt : matrix F -> matrix F.

Lemma PCA_fit_defined n d k (X : matrix F) :
  1 <= n -> has_shape n d X -> k <= n -> k <= d ->
  forallb (forallb finite) X = true ->
  (forall M, length (svd_Vt M) = Nat.min (length M) (ncols M)) ->
  exists self,
    PCA_fit svd_Vt k X = inr self
    /\ length (mean_ self) = d
    /\ length (components_ self) = k.
Proof.
  intros Hn HX Hkn Hkd Hfin Hsvd. pose proof (shape_width n d X HX Hn) as Hw.
  unfold PCA_fit. rewrite Hfin, (proj1 HX), Hw.
  rewrite (proj2 (Nat.leb_le k (Nat.min n d))) by lia.
  eexists. split; [reflexivity|]. simpl.
  rewrite length_map, columns_of_length, Hw. split; [reflexivity|].
  rewrite length_take, Hsvd, length_map, (proj1 HX).
  destruct X as [|r0 X]; [simpl in HX; destruct HX; simpl in *; lia|].
  simpl. rewrite length_zip_with, length_map, columns_of_length. simpl.
  destruct HX as [_ Hrows]. apply Forall_inv in Hrows. lia.
Qed.

Lemma PCA_transform_shape (self : PCA F) m d (Y : matrix F) :
  has_shape m d Y -> length (mean_ self) = d ->
  forallb (forallb finite) Y = true ->
  exists out,
    PCA_transform self Y = inr out
    /\ has_shape m (length (components_ self)) out.
Proof.
  intros [Hlen Hrows] Hmean Hfin. unfold PCA_transform. rewrite Hfin, Hmean.
  assert (forallb (fun row => length row =? d)%nat Y = true) as ->.
  { apply forallb_forall. intros row Hrow. apply Nat.eqb_eq.
    rewrite Forall_forall in Hrows. apply Hrows, list_elem_of_In, Hrow. }
  eexists. split; [reflexivity|].
  split; [rewrite length_map; exact Hlen|].
  apply Forall_map, Forall_forall. intros row _. simpl. apply length_map.
Qed.
End ScalerShape.

Section ScalerExact.
Import Sklearn Observe.
Local Open Scope Q_scope.

Lemma fltb_Q (a b : Q) : fltb a b = true <-> a < b.
Proof.
  unfold fltb. simpl. rewrite negb_true_iff. split.
  - intros Hb. apply Qnot_le_lt. intros Hle.
    apply Qle_bool_iff in Hle. congruence.
  - intros Hlt. destruct (Qle_bool b a) eqn:Hb; [|reflexivity].
    apply Qle_bool_iff in Hb. exfalso. exact (Qlt_not_le _ _ Hlt Hb).
Qed.

Lemma fltb_Q_false (a b : Q) : fltb a b = false <-> b <= a.
Proof.
  unfold fltb. simpl. rewrite negb_false_iff. apply Qle_bool_iff.
Qed.

Lemma fmin_le (a b : Q) : fmin a b <= a /\ fmin a b <= b.
Proof.
  unfold fmin. destruct (fltb b a) eqn:Hb.
  - apply fltb_Q in Hb. split; [apply Qlt_le_weak, Hb|apply Qle_refl].
  - apply fltb_Q_false in Hb. split; [apply Qle_refl|exact Hb].
Qed.

Lemma fmax_ge (a b : Q) : a <= fmax a b /\ b <= fmax a b.
Proof.
  unfold fmax. destruct (fltb a b) eqn:Hb.
  - apply fltb_Q in Hb. split; [apply Qlt_le_weak, Hb|apply Qle_refl].
  - apply fltb_Q_false in Hb. split; [apply Qle_refl|exact Hb].
Qed.

Lemma fold_min_le (rest : list Q) (x : Q) :
  fold_left fmin rest x <= x
  /\ Forall (fun y => fold_left fmin rest x <= y) rest.
Proof.
  revert x. induction rest as [|y rest IH]; intros x; simpl.
  - split; [apply Qle_refl|constructor].
  - destruct (IH (fmin x y)) as [Hm Hrest].
    destruct (fmin_le x y) as [Hx Hy].
    split; [eapply Qle_trans; eassumption|].
    constructor; [eapply Qle_trans; eassumption|exact Hrest].
Qed.

Lemma fold_max_ge (rest : list Q) (x : Q) :
  x <= fold_left fmax rest x
  /\ Forall (fun y => y <= fold_left fmax rest x) rest.
Proof.
  revert x. induction rest as [|y rest IH]; intros x; simpl.
  - split; [apply Qle_refl|constructor].
  - destruct (IH (fmax x y)) as [Hm Hrest].
    destruct (fmax_ge x y) as [Hx Hy].
    split; [eapply Qle_trans; eassumption|].
    constructor; [eapply Qle_trans; eassumption|exact Hrest].
Qed.

Lemma no_nan_Q (c : list Q) : List.filter (fun x => negb (is_nan x)) c = c.
Proof. induction c as [|x c IH]; simpl; [reflexivity|]. f_equal. exact IH. Qed.

Lemma no_inf_Q (X : matrix Q) : existsb (existsb is_inf) X = false.
Proof.
  induction X as [|row X IH]; [reflexivity|].
  cbn [existsb]. rewrite IH, orb_false_r.
  induction row as [|x row IHr]; [reflexivity|exact IHr].
Qed.

Lemma reduce_bounds (c : list Q) (x : Q) :
  x ∈ c -> reduce fmin c <= x /\ x <= reduce fmax c.
Proof.
  unfold reduce. rewrite no_nan_Q.
  destruct c as [|x0 rest]; [intros Hx; inversion Hx|].
  intros Hx.
  destruct (fold_min_le rest x0) as [Hmin0 Hmin].
  destruct (fold_max_ge rest x0) as [Hmax0 Hmax].
  rewrite Forall_forall in Hmin, Hmax.
  apply elem_of_cons in Hx as [->|Hx]; [split; assumption|].
  split; [apply Hmin, Hx|apply Hmax, Hx].
Qed.

(** The scaled value of an entry between its column's minimum and
    maximum, before rounding. *)
Lemma scaled_between (mn mx x : Q) :
  mn <= x -> x <= mx ->
  let s := fdiv (fsub f1 f0) (handle_zeros_in_scale (fsub mx mn)) in
  0 <= fadd (fmul x s) (fsub f0 (fmul mn s)) <= 1.
Proof.
  intros Hmn Hmx s. subst s. unfold handle_zeros_in_scale.
  destruct (fltb (fsub mx mn) tiny) eqn:Hr.
  - apply fltb_Q in Hr. simpl in *.
    assert (x * ((1 - 0) / 1) + (0 - mn * ((1 - 0) / 1)) == x - mn) as ->
      by field.
    assert ((10 # 4503599627370496) < 1) by reflexivity.
    split; lra.
  - apply fltb_Q_false in Hr. simpl in *.
    assert (0 < mx - mn) as Hpos.
    { eapply Qlt_le_trans; [|exact Hr]. reflexivity. }
    assert (x * ((1 - 0) / (mx - mn)) + (0 - mn * ((1 - 0) / (mx - mn)))
            == (x - mn) / (mx - mn)) as ->
      by (field; lra).
    split.
    + apply Qle_shift_div_l; [exact Hpos|]. lra.
    + apply Qle_shift_div_r; [exact Hpos|]. lra.
Qed.

Lemma fit_transform_exact n d (X : matrix Q) :
  (1 <= n)%nat -> (1 <= d)%nat -> has_shape n d X ->
  exists scaled,
    fit_transform X = inr scaled
    /\ has_shape n d scaled
    /\ Forall (Forall (fun e => 0 <= e <= 1)) scaled.
Proof.
  intros Hn Hd HX.
  destruct (fit_defined n d X Hn Hd HX (no_inf_Q X))
    as (self & Hfit & Hls & Hlm & Hscale & Hmin).
  unfold fit_transform. rewrite Hfit. eexists. split; [reflexivity|].
  split; [exact (transform_shape n d self X HX Hls Hlm)|].
  unfold transform. apply Forall_map, Forall_forall. intros row Hrow.
  apply Forall_forall. intros e He.
  apply list_elem_of_lookup in He as [j Hj].
  apply lookup_zip_with_Some in Hj as (a & m & -> & Ha & Hm).
  apply lookup_zip_with_Some in Ha as (x & sc & -> & Hx & Hsc).
  rewrite Hscale, list_lookup_fmap in Hsc.
  destruct (columns_of X !! j) as [c|] eqn:Hc; [|discriminate Hsc].
  simpl in Hsc. injection Hsc as <-.
  rewrite Hmin in Hm.
  apply lookup_zip_with_Some in Hm as (c' & sc' & -> & Hc' & Hsc').
  rewrite Hc in Hc'. injection Hc' as <-.
  rewrite Hscale, list_lookup_fmap, Hc in Hsc'. simpl in Hsc'.
  injection Hsc' as <-.
  assert (x ∈ c) as Hin.
  { unfold columns_of in Hc. rewrite list_lookup_fmap in Hc.
    destruct (seq 0 (ncols X) !! j) as [j'|] eqn:Hseq; [|discriminate Hc].
    apply lookup_seq in Hseq as [-> _]. simpl in Hc. injection Hc as <-.
    unfold col. apply list_elem_of_omap. exists row.
    split; [exact Hrow|exact Hx]. }
  destruct (reduce_bounds c x Hin) as [Hlo Hhi].
  exact (scaled_between _ _ x Hlo Hhi).
Qed.
End ScalerExact.

Section ScalerOnTables.
Import Sklearn Observe.

Lemma check_array_accepts (a : Clustering.ndarray) (m : matrix float64) :
  check_array a = inr m ->
  Forall (fun obs => forallb Clustering.is_numeric obs = true) a
  /\ same_shape a m.
Proof.
  unfold check_array. destruct (mapM (mapM as_float) a) as [m'|] eqn:Hm;
    [|intros Hno; discriminate Hno].
  intros [= <-].
  apply mapM_Some in Hm. unfold same_shape.
  induction Hm as [|row out a m' Hrow _ IH]; [split; constructor|].
  destruct IH as [Hnum Hshape]. apply mapM_Some in Hrow.
  split; constructor; try assumption.
  - apply forallb_forall. intros c Hc.
    apply (proj2 (list_elem_of_In _ _)) in Hc.
    apply list_elem_of_lookup in Hc as [i Hi].
    destruct (Forall2_lookup_l _ _ _ _ _ Hrow Hi) as (x & _ & Hx).
    destruct c; [reflexivity|discriminate Hx].
  - eapply Forall2_length, Hrow.
Qed.

(** A table that the scaler accepts holds numbers only, and comes back
    with its shape. *)
Lemma scale_table_accepts (X : Clustering.DataFrame) d scaled :
  Forall (fun obs => length obs = d) (Clustering.values X) ->
  scale_table X = inr scaled ->
  Forall (fun obs => forallb Clustering.is_numeric obs = true)
         (Clustering.values X)
  /\ length scaled = length (Clustering.values X)
  /\ Forall (fun obs => length obs = d) scaled.
Proof.
  intros Hd Hst. unfold scale_table in Hst.
  destruct (check_array (Clustering.values X)) as [e|m] eqn:Hm;
    [discriminate Hst|].
  destruct (check_array_accepts _ _ Hm) as [Hnum Hshape].
  split; [exact Hnum|].
  assert (has_shape (length (Clustering.values X)) d m) as HX.
  { split; [symmetry; eapply Forall2_length, Hshape|].
    clear - Hd Hshape. unfold same_shape in Hshape.
    induction Hshape as [|r r' a b Hr _ IH]; [constructor|].
    apply Forall_cons in Hd as [Hn Hd]. constructor; [lia|apply IH, Hd]. }
  unfold fit_transform in Hst.
  destruct (fit m) as [e|self] eqn:Hfit; [discriminate Hst|].
  assert (scaled = map (map Clustering.Num) (transform self m)) as ->
    by congruence.
  destruct (fit_accepts m self Hfit) as (Hn & Hw & Hinf).
  rewrite (proj1 HX) in Hn.
  rewrite (shape_width _ d m HX Hn) in Hw.
  destruct (fit_defined _ d m Hn Hw HX Hinf) as (self' & Hfit' & Hls & Hlm & _).
  assert (self' = self) as -> by congruence.
  destruct (transform_shape _ d self m HX Hls Hlm) as [Hlen Hrows].
  split; [rewrite length_map; exact Hlen|].
  apply Forall_map. eapply Forall_impl; [exact Hrows|].
  intros row Hrow. simpl in *. rewrite length_map. exact Hrow.
Qed.
End ScalerOnTables.

Section FiniteEntries.
Import Sklearn.
Context {F : Type} `{Arith F}.

Lemma finite_no_inf (X : matrix F) :
  forallb (forallb finite) X = true -> existsb (existsb is_inf) X = false.
Proof.
  intros Hfin. apply not_true_is_false. intros Hinf.
  apply existsb_exists in Hinf as (row & Hrow & Hinf).
  apply existsb_exists in Hinf as (x & Hx & Hinf).
  rewrite forallb_forall in Hfin. specialize (Hfin row Hrow).
  rewrite forallb_forall in Hfin. specialize (Hfin x Hx).
  unfold finite in Hfin. rewrite Hinf, orb_true_r in Hfin. discriminate Hfin.
Qed.
End FiniteEntries.

(** C4 (counterexample): on a matrix of two observations of six
    measurements, each column holding two different finite numbers,
    [MinMaxScaler().fit_transform] returns a matrix of the same shape
    whose second row lies above 1.0 in every entry: the scaled maximum
    of the first column (9.2 and 17.25) is 1 + 2^-52. *)
Lemma scaled_maximum_exceeds_one :
  Observe.has_shape 2 6 Cases.grains
  /\ forallb (forallb Sklearn.finite) Cases.grains = true
  /\ Forall (fun c => exists a b, c = [a; b] /\ SFltb a b = true)
            (Sklearn.columns_of Cases.grains)
  /\ exists row0 x row1,
       Sklearn.fit_transform Cases.grains = inr [row0; x :: row1]
       /\ length (x :: row1) = 6
       /\ Forall (fun e => SFltb (F64.of_Z 1) e = true) (x :: row1)
       /\ Forall (fun e => Sklearn.in_unit e = false) (x :: row1)
       /\ Observe.exact x = Some (4503599627370497 # 4503599627370496)%Q.
Proof.
  split; [split; [reflexivity|repeat constructor]|].
  split; [vm_compute; reflexivity|].
  split.
  { repeat constructor; do 2 eexists; split; try reflexivity;
      vm_compute; reflexivity. }
  do 3 eexists. split; [vm_compute; reflexivity|].
  split; [reflexivity|].
  split; [repeat constructor; vm_compute; reflexivity|].
  split; [repeat constructor; vm_compute; reflexivity|].
  vm_compute. reflexivity.
Qed.

(** C4: on a matrix of n >= 2 observations of d >= 2 finite
    measurements (the notebook has d = 6), [MinMaxScaler().fit_transform]
    returns a matrix of the same shape, whose entries are
    x * scale_ + min_ computed in float64; computed without rounding, on
    any matrix of that shape, they all lie in [0, 1].
    [PCA(n_components=2)] fitted on a finite matrix of that shape
    transforms it to a matrix of n rows and exactly 2 columns (the
    singular value decomposition returning min(n, d) vectors). *)
Theorem scaler_and_pca_shapes
    (X : Sklearn.matrix float64) (n d : nat)
    (svd_Vt : Sklearn.matrix float64 -> Sklearn.matrix float64) :
  2 <= n -> 2 <= d ->
  Observe.has_shape n d X ->
  forallb (forallb Sklearn.finite) X = true ->
  (forall M, length (svd_Vt M) = Nat.min (length M) (Sklearn.ncols M)) ->
  (exists scaled,
     Sklearn.fit_transform X = inr scaled
     /\ Observe.has_shape n d scaled)
  /\ (forall Xq : Sklearn.matrix Q,
        Observe.has_shape n d Xq ->
        exists scaled,
          Sklearn.fit_transform Xq = inr scaled
          /\ Observe.has_shape n d scaled
          /\ Forall (Forall (fun e => (0 <= e <= 1)%Q)) scaled)
  /\ (forall scaled : Sklearn.matrix float64,
        Observe.has_shape n d scaled ->
        forallb (forallb Sklearn.finite) scaled = true ->
        exists pca features_2d,
          Sklearn.PCA_fit svd_Vt 2 scaled = inr pca
          /\ Sklearn.PCA_transform pca scaled = inr features_2d
          /\ Observe.has_shape n 2 features_2d).
Proof.
  intros Hn Hd HX Hfin Hsvd. split; [|split].
  - apply fit_transform_shape; try lia; [exact HX|].
    apply finite_no_inf, Hfin.
  - intros Xq HXq. apply fit_transform_exact; try lia. exact HXq.
  - intros scaled Hshape Hfinite.
    destruct (PCA_fit_defined svd_Vt n d 2 scaled)
      as (pca & Hpca & Hmean & Hcomp); try lia; try assumption.
    destruct (PCA_transform_shape pca n d scaled Hshape Hmean Hfinite)
      as (out & Hout & Hshape2).
    exists pca, out. rewrite Hcomp in Hshape2. auto.
Qed.

Lemma scaler_and_pca_shapes_witness :
  exists scaled,
    Sklearn.fit_transform Cases.grains = inr scaled
    /\ Observe.has_shape 2 6 scaled.
Proof.
  refine (proj1 (scaler_and_pca_shapes Cases.grains 2 6
                   (fun M => replicate (Nat.min (length M) (Sklearn.ncols M)) [])
                   _ _ _ _ _)).
  - lia.
  - lia.
  - split; [reflexivity|repeat constructor].
  - vm_compute. reflexivity.
  - intros M. apply length_replicate.
Defined.

(* --------------------------------------------------------------------- *)
(** ** From the loaded table to the principal components *)
(* --------------------------------------------------------------------- *)

(** X5: when no library call raises, running the first two cells of the
    clustering notebook in order finishes; the scaler is called once, on
    a selection of the loaded table (the [features] table itself when
    the labels are distinct); [PCA(n_components=2)] is fitted once, on
    the array that this call of the scaler returned; the estimator that
    [fit] returned is asked once to transform that same array; the cell
    leaves these three return values in [scaled_features], [pca] and
    [features_2d], and shows the first rows of the last. *)
Theorem load_then_pca_calls
    {W : Type} (L : Kernel.library Clustering.E W)
    (s : Kernel.kernel Clustering.E W) :
  Observe.answers L ->
  exists data features X scaled pca features_2d s',
    Kernel.run L Observe.load_then_pca s
    = Kernel.Done (scaled, pca, features_2d, slice 0 10 features_2d) s'
    /\ In (Kernel.LCall (Clustering.read_csv "seeds.csv") (inr data))
          (Observe.added s s')
    /\ Clustering.features_of data = inr features
    /\ Clustering.getitem features (slice 0 6 (Clustering.columns data)) = inr X
    /\ (NoDup (Clustering.columns data) -> X = features)
    /\ omap Observe.feed_of (Observe.added s s')
       = [Observe.Scaled X scaled;
          Observe.Fitted {| Clustering.n_components := 2;
                            Clustering.components_ := [] |} scaled pca;
          Observe.Projected pca scaled features_2d].
Proof.
  intros Hans.
  unfold Observe.load_then_pca, Clustering.load_cell.
  steps Hans.
  match goal with
  | H : Kernel.call L (Clustering.read_csv _) _ = (_, inr ?d) |- _ =>
      rename d into data
  end.
  destruct (selections_defined data) as (features & X & Hf & HX).
  rewrite Hf. steps Hans. cbn [fst snd].
  unfold Clustering.pca_cell. steps Hans. rewrite HX. steps Hans.
  match goal with
  | |- context [Kernel.Done (?sc, ?p, ?f2, _) _] =>
      exists data, features, X, sc, p, f2
  end.
  eexists. split; [reflexivity|].
  read_log.
  split; [simpl; tauto|].
  split; [exact Hf|]. split; [exact HX|].
  split.
  { intros Hnd.
    pose proof (features_of_prefix data Hnd) as Hshort. simpl in Hshort.
    rewrite Hf in Hshort. injection Hshort as ->.
    unfold slice in HX. simpl in HX. rewrite drop_0 in HX.
    rewrite (take_six_min (Clustering.columns data)) in HX.
    rewrite reselect_prefix in HX by (assumption || lia).
    injection HX as <-. reflexivity. }
  reflexivity.
Qed.

(* --------------------------------------------------------------------- *)
(** ** The whole cell of the cluster search *)
(* --------------------------------------------------------------------- *)

Section SearchLog.
Import Kernel Clustering Observe.
Context {W : Type} (L : library E W) (X : ndarray).

Lemma for_wcss_body_log (cs : list Z) :
  (forall i w, In i cs ->
     exists w' m, call L (KMeans_fit {| n_clusters := i |} X) w = (w', inr m)) ->
  forall wcss0 s,
  exists models s',
    length models = length cs
    /\ run L (for_ cs (wcss_body X) wcss0) s
       = Done (wcss0 ++ map inertia_ models) s'
    /\ log s' = log s ++ concat (zip_with (turn X) cs models).
Proof.
  induction cs as [|i rest IH]; intros Hfit wcss0 s.
  - exists [], s. simpl. rewrite !app_nil_r. auto.
  - destruct (Hfit i (world s) (or_introl eq_refl)) as (w' & m & Hcall).
    set (s3 := record (record (record (record s (world s) (LStmt 108))
                         (world s) (LStmt 110))
                         w' (LCall (KMeans_fit {| n_clusters := i |} X) (inr m)))
                         w' (LStmt 112)).
    destruct (IH (fun j w Hj => Hfit j w (or_intror Hj))
                 (wcss0 ++ [inertia_ m]) s3) as (models & s' & Hlen & Hrun & Hlog).
    exists (m :: models), s'. split; [simpl; lia|]. split.
    + simpl. rewrite Hcall. simpl. fold s3. rewrite Hrun.
      rewrite <- app_assoc. reflexivity.
    + rewrite Hlog. unfold s3. simpl. rewrite <- !app_assoc. reflexivity.
Qed.

(** The loop stops at the first [fit] that raises. *)
Lemma for_wcss_body_raises (pre post : list Z) (j : Z) (e : exn) :
  (forall i w, In i pre ->
     exists w' m, call L (KMeans_fit {| n_clusters := i |} X) w = (w', inr m)) ->
  (forall w, exists w', call L (KMeans_fit {| n_clusters := j |} X) w = (w', inl e)) ->
  forall wcss0 s,
  exists models s',
    length models = length pre
    /\ run L (for_ (pre ++ j :: post) (wcss_body X) wcss0) s = Failed e s'
    /\ log s' = log s ++ concat (zip_with (turn X) pre models)
                ++ [LStmt 108; LStmt 110;
                    LCall (KMeans_fit {| n_clusters := j |} X) (inl e)].
Proof.
  induction pre as [|i rest IH]; intros Hfit Hraise wcss0 s.
  - destruct (Hraise (world s)) as (w' & Hcall).
    exists []. eexists. split; [reflexivity|]. split.
    + simpl. rewrite Hcall. reflexivity.
    + simpl. rewrite <- !app_assoc. reflexivity.
  - destruct (Hfit i (world s) (or_introl eq_refl)) as (w' & m & Hcall).
    set (s3 := record (record (record (record s (world s) (LStmt 108))
                         (world s) (LStmt 110))
                         w' (LCall (KMeans_fit {| n_clusters := i |} X) (inr m)))
                         w' (LStmt 112)).
    destruct (IH (fun k w Hk => Hfit k w (or_intror Hk)) Hraise
                 (wcss0 ++ [inertia_ m]) s3) as (models & s' & Hlen & Hrun & Hlog).
    exists (m :: models), s'. split; [simpl; lia|]. split.
    + simpl. rewrite Hcall. simpl. fold s3. exact Hrun.
    + rewrite Hlog. unfold s3. simpl. rewrite <- !app_assoc. reflexivity.
Qed.

Lemma turns_fit_calls (cs : list Z) (models : list FittedKMeans) :
  omap fit_call (concat (zip_with (turn X) cs models))
  = zip_with (fit_record X) cs models.
Proof.
  revert models. induction cs as [|i cs IH]; intros [|m models]; try reflexivity.
  simpl. f_equal. apply IH.
Qed.

Lemma turns_plot_calls (cs : list Z) (models : list FittedKMeans) :
  omap plot_call (concat (zip_with (turn X) cs models)) = [].
Proof.
  revert models. induction cs as [|i cs IH]; intros [|m models]; try reflexivity.
  simpl. apply IH.
Qed.

Lemma lines_app (l1 l2 : list (entry E)) :
  lines (l1 ++ l2) = lines l1 ++ lines l2.
Proof. apply omap_app. Qed.

Lemma turns_lines (cs : list Z) (models : list FittedKMeans) :
  lines (concat (zip_with (turn X) cs models))
  = concat (zip_with (fun _ _ => [108; 110; 112]) cs models).
Proof.
  revert models. induction cs as [|i cs IH]; intros [|m models]; try reflexivity.
  simpl. unfold lines in *. simpl. do 3 f_equal. apply IH.
Qed.
End SearchLog.

Lemma range_split (j : Z) :
  (1 <= j <= 10)%Z -> range 1 11 = range 1 j ++ j :: range (j + 1) 11.
Proof.
  intros Hj.
  assert (j = 1 \/ j = 2 \/ j = 3 \/ j = 4 \/ j = 5 \/ j = 6 \/ j = 7
          \/ j = 8 \/ j = 9 \/ j = 10)%Z as Hc by lia.
  repeat (destruct Hc as [->|Hc]; [reflexivity|]). subst j. reflexivity.
Qed.

(** Entries at the head of a log that the reader [f] passes over. *)
Ltac skip_entries :=
  repeat match goal with
         | |- context [omap ?f (?a :: ?l)] =>
             change (omap f (a :: l)) with (omap f l)
         end.

(** The entries of [l] before its tail [tail]. *)
Ltac before_tail l tail :=
  lazymatch l with
  | tail => constr:(@nil (Kernel.entry Clustering.E))
  | ?a :: ?l' => let p := before_tail l' tail in constr:(a :: p)
  end.

(** X6: when no library call raises, the cell of the cluster search
    finishes with ten values in [wcss] and calls [plt.plot] once, with
    [range(1, 11)] against [wcss]: ten abscissas for ten ordinates. *)
Theorem wcss_cell_plots_ten_points
    {W : Type} (L : Kernel.library Clustering.E W)
    (features : Clustering.DataFrame) (s : Kernel.kernel Clustering.E W) :
  Observe.answers L ->
  exists wcss s',
    Kernel.run L (Clustering.wcss_cell features) s = Kernel.Done wcss s'
    /\ omap Observe.plot_call (Observe.added s s')
       = [([1; 2; 3; 4; 5; 6; 7; 8; 9; 10]%Z, wcss)]
    /\ length wcss = 10
    /\ length (omap Clustering.fit_call (Observe.added s s')) = 10.
Proof.
  intros Hans. unfold Clustering.wcss_cell. steps Hans.
  unfold Clustering.wcss_loop. steps Hans.
  match goal with
  | |- context [Kernel.run L (Kernel.for_ _ _ ?acc) ?s0] =>
      destruct (for_wcss_body_log L (Clustering.values features) (range 1 11)
                  (fun i w _ => Hans _ _ w) acc s0)
        as (models & s1 & Hlen & Hrun & Hlog);
      rewrite Hrun
  end.
  steps Hans. do 2 eexists. split; [reflexivity|].
  unfold Observe.added. cbn [Kernel.log Kernel.record] in *.
  rewrite Hlog. rewrite <- ?app_assoc, drop_app_length.
  change (length (range 1 11)) with 10 in Hlen.
  rewrite !omap_app, turns_plot_calls, turns_fit_calls.
  do 11 (destruct models as [|? models]; try discriminate Hlen).
  repeat split; reflexivity.
Qed.

(** X7: if every call other than [KMeans.fit] returns, the fits for
    1, ..., j-1 clusters return and the fit for j clusters raises [e],
    the cell of the cluster search (lines 100-119) stops there with
    [e]: it has made exactly j fit calls, the raising one being the last
    thing it did; the statements it started are the imports, the
    loop's first j-1 turns and lines 108 and 110 of turn j; line 115 is
    never reached, so nothing is plotted. *)
Theorem wcss_cell_stops_at_failing_fit
    {W : Type} (L : Kernel.library Clustering.E W)
    (features : Clustering.DataFrame) (s : Kernel.kernel Clustering.E W)
    (j : Z) (e : Kernel.exn) :
  (1 <= j <= 10)%Z ->
  Observe.answers_but_fit L ->
  (forall i w, (1 <= i < j)%Z ->
     exists w' m,
       Kernel.call L (Clustering.KMeans_fit {| Clustering.n_clusters := i |}
                        (Clustering.values features)) w = (w', inr m)) ->
  (forall w,
     exists w',
       Kernel.call L (Clustering.KMeans_fit {| Clustering.n_clusters := j |}
                        (Clustering.values features)) w = (w', inl e)) ->
  exists models s',
    Kernel.run L (Clustering.wcss_cell features) s = Kernel.Failed e s'
    /\ length models = Z.to_nat (j - 1)
    /\ omap Clustering.fit_call (Observe.added s s')
       = zip_with (Clustering.fit_record (Clustering.values features))
                  (range 1 j) models
         ++ [({| Clustering.n_clusters := j |}, Clustering.values features, inl e)]
    /\ last (Observe.added s s')
       = Some (Kernel.LCall
                 (Clustering.KMeans_fit {| Clustering.n_clusters := j |}
                    (Clustering.values features)) (inl e))
    /\ Kernel.lines (Observe.added s s')
       = [100; 101; 102; 103; 106; 107]
         ++ concat (replicate (Z.to_nat (j - 1)) [108; 110; 112])
         ++ [108; 110]
    /\ omap Observe.plot_call (Observe.added s s') = [].
Proof.
  intros Hj Hans Hfit Hraise.
  unfold Clustering.wcss_cell. steps Hans.
  unfold Clustering.wcss_loop. steps Hans.
  rewrite (range_split j Hj).
  match goal with
  | |- context [Kernel.run L (Kernel.for_ _ _ ?acc) ?s0] =>
      destruct (for_wcss_body_raises L (Clustering.values features)
                  (range 1 j) (range (j + 1) 11) j e) with (wcss0 := acc) (s := s0)
        as (models & s1 & Hlen & Hrun & Hlog)
  end.
  { intros i w' Hi. apply Hfit. unfold range in Hi.
    apply in_map_iff in Hi as (k & <- & Hk). apply in_seq in Hk. lia. }
  { exact Hraise. }
  rewrite Hrun. cbn iota.
  assert (length (range 1 j) = Z.to_nat (j - 1)) as Hcount
    by (unfold range; rewrite length_map, length_seq; reflexivity).
  exists models, s1. split; [reflexivity|].
  split; [rewrite Hlen; exact Hcount|].
  unfold Observe.added. cbn [Kernel.log Kernel.record] in Hlog.
  rewrite Hlog, <- ?app_assoc, drop_app_length.
  cbn [app]. split; [|split; [|split]].
  - skip_entries. rewrite omap_app, turns_fit_calls. reflexivity.
  - match goal with
    | |- context [?turns ++ [?a; ?b; ?c]] =>
        assert (last (turns ++ [a; b; c]) = Some c) as Hlast
          by (change [a; b; c] with ([a; b] ++ [c]);
              rewrite app_assoc; apply last_snoc)
    end.
    rewrite !last_cons, Hlast. reflexivity.
  - match goal with
    | |- Kernel.lines (?a0 :: ?a1 :: ?a2 :: ?a3 :: ?a4 :: ?a5 :: ?a6 :: ?a7
                         :: ?a8 :: ?a9 :: ?turns ++ ?stop) = _ =>
        change (Kernel.lines ([a0; a1; a2; a3; a4; a5; a6; a7; a8; a9]
                                ++ turns ++ stop)
                = [100; 101; 102; 103; 106; 107]
                    ++ concat (replicate (Z.to_nat (j - 1)) [108; 110; 112])
                    ++ [108; 110])
    end.
    rewrite !lines_app, turns_lines, <- Hcount.
    f_equal. f_equal.
    clear - Hlen. revert models Hlen. generalize (range 1 j).
    induction l as [|i cs IH]; intros [|m models] Hlen; simpl in *;
      try reflexivity; try discriminate Hlen.
    do 3 f_equal. apply IH. lia.
  - skip_entries. rewrite omap_app, turns_plot_calls. reflexivity.
Qed.

(* --------------------------------------------------------------------- *)
(** ** What the estimators are fed *)
(* --------------------------------------------------------------------- *)

Section Feeding.
Import Kernel Clustering Observe.

Lemma turns_feed (X : ndarray) (cs : list Z) (models : list FittedKMeans) :
  length models = length cs ->
  omap feed_of (concat (zip_with (turn X) cs models))
  = map (fun i => Clustered {| n_clusters := i |} X) cs.
Proof.
  revert models. induction cs as [|i cs IH]; intros [|m models] Hlen;
    simpl in Hlen; try discriminate Hlen; [reflexivity|].
  simpl. f_equal. apply IH. lia.
Qed.
End Feeding.

(** C5 (counterexample): [PCA] is not passed the features table.  On
    the table [Demo.seeds], whose first six columns are
    [Demo.seeds_features], the cells of lines 22-119 call
    [MinMaxScaler().fit_transform] on those six columns and then
    [PCA.fit] and [PCA.transform] on the array the scaler returned,
    which has the shape of the six columns but not their entries. *)
Lemma pca_is_fed_the_scaled_array :
  exists scaled pca features_2d wcss s',
    Kernel.run Cases.scaling Observe.feeding (Kernel.start 0)
    = Kernel.Done wcss s'
    /\ Clustering.features_of Demo.seeds = inr Demo.seeds_features
    /\ take 3 (omap Observe.feed_of (Kernel.log s'))
       = [Observe.Scaled Demo.seeds_features scaled;
          Observe.Fitted {| Clustering.n_components := 2;
                            Clustering.components_ := [] |} scaled pca;
          Observe.Projected pca scaled features_2d]
    /\ scaled <> Clustering.values Demo.seeds_features
    /\ Observe.same_shape (Clustering.values Demo.seeds_features) scaled.
Proof.
  do 5 eexists. split; [vm_compute; reflexivity|].
  split; [vm_compute; reflexivity|].
  split; [vm_compute; reflexivity|].
  split; [intros Heq; vm_compute in Heq; discriminate Heq|].
  repeat constructor.
Qed.

(** C5: let the scaler be scikit-learn's, every other library call
    return, and [read_csv] return a seeds table (distinct labels, at
    least six columns, full rows).  Then the [features] table is exactly
    the first six columns of the loaded table, and the cells of lines
    22-30, 48-57 and 100-119, run in order, go one of two ways.  Either
    they finish: normalization (line 52) was passed the features table
    and accepted it, so all its entries are numbers; [PCA] (lines 55 and
    56) was passed not the features table but the array that
    normalization returned, which has as many rows, of six entries each;
    and each of the ten [KMeans.fit] calls (line 110) was passed the
    values of the features table, so every observation fed to
    clustering has exactly six numeric features.  Or normalization
    refuses the table (an entry that is no number, or no row at all)
    and the run stops at line 52 with nothing fed to [PCA] or
    [KMeans]. *)
Theorem features_first_six_columns
    {W : Type} (L : Kernel.library Clustering.E W)
    (s : Kernel.kernel Clustering.E W) :
  Observe.scaler_is_sklearn L ->
  (forall w w' df,
     Kernel.call L (Clustering.read_csv "seeds.csv") w = (w', inr df) ->
     Observe.seeds_table df) ->
  exists data features s',
    In (Kernel.LCall (Clustering.read_csv "seeds.csv") (inr data))
       (Observe.added s s')
    /\ Clustering.features_of data = inr features
    /\ Clustering.columns features = take 6 (Clustering.columns data)
    /\ Clustering.values features = map (take 6) (Clustering.rows data)
    /\ Forall (fun obs => length obs = 6) (Clustering.values features)
    /\ ((exists scaled pca features_2d wcss,
           Kernel.run L Observe.feeding s = Kernel.Done wcss s'
           /\ Sklearn.scale_table features = inr scaled
           /\ omap Observe.feed_of (Observe.added s s')
              = [Observe.Scaled features scaled;
                 Observe.Fitted {| Clustering.n_components := 2;
                                   Clustering.components_ := [] |} scaled pca;
                 Observe.Projected pca scaled features_2d]
                ++ map (fun i => Observe.Clustered
                                   {| Clustering.n_clusters := i |}
                                   (Clustering.values features))
                       [1; 2; 3; 4; 5; 6; 7; 8; 9; 10]%Z
           /\ Forall (fun obs => forallb Clustering.is_numeric obs = true)
                     (Clustering.values features)
           /\ length scaled = length (Clustering.rows data)
           /\ Forall (fun obs => length obs = 6) scaled)
        \/ (exists e,
              Kernel.run L Observe.feeding s = Kernel.Failed e s'
              /\ Sklearn.scale_table features = inl e
              /\ omap Observe.feed_of (Observe.added s s') = []
              /\ Kernel.lines (Observe.added s s')
                 = [22; 25; 26; 29; 30; 48; 49; 52])).
Proof.
  intros Hans Hseeds.
  unfold Observe.feeding, Clustering.load_cell. steps Hans.
  match goal with
  | Hc : Kernel.call L (Clustering.read_csv _) _ = (_, inr ?d) |- _ =>
      rename d into data;
      destruct (Hseeds _ _ _ Hc) as (Hnd & H6 & Hfull)
  end.
  pose proof (features_of_prefix data Hnd) as Hf. cbv zeta in Hf.
  rewrite Nat.min_l in Hf by lia.
  set (features := {| Clustering.columns := take 6 (Clustering.columns data);
                      Clustering.rows := map (take 6) (Clustering.rows data) |})
    in *.
  rewrite Hf. steps Hans. cbn [fst snd].
  unfold Clustering.pca_cell. steps Hans.
  assert (Clustering.getitem features (slice 0 6 (Clustering.columns data))
          = inr features) as Hsel.
  { unfold slice. simpl. rewrite drop_0. apply reselect_prefix; assumption. }
  rewrite Hsel. steps Hans.
  assert (Forall (fun obs => length obs = 6) (Clustering.values features))
    as Hsix.
  { unfold Clustering.values, features. cbn [Clustering.rows].
    apply Forall_map.
    eapply Forall_impl; [exact Hfull|]. intros r Hr. cbv beta in Hr |- *.
    rewrite length_take. lia. }
  exists data, features.
  match goal with
  | |- context [@Kernel.run _ _ L ?X (Kernel.lib ?ev) ?s0] =>
      destruct (Hans X ev (Kernel.world s0)) as (w' & Hcall);
      cbn [Kernel.world Kernel.record] in Hcall;
      destruct (Sklearn.scale_table features) as [e|scaled] eqn:Hscale;
      [ rewrite (@run_lib_raises _ _ L X ev s0 w' e Hcall)
      | rewrite (@run_lib_returns _ _ L X ev s0 w' scaled Hcall) ]
  end.
  - (* normalization refuses the table *)
    cbn iota.
    match goal with |- context [Kernel.Failed e ?sf] => exists sf end.
    read_log.
    split; [simpl; tauto|].
    split; [exact Hf|]. split; [reflexivity|]. split; [reflexivity|].
    split; [exact Hsix|]. right. exists e.
    repeat split; reflexivity.
  - (* normalization accepts it *)
    destruct (scale_table_accepts features 6 scaled Hsix Hscale)
      as (Hnum & Hrows & Hwidth).
    cbn [Kernel.world Kernel.record Kernel.log]. steps Hans.
    unfold Clustering.wcss_cell. steps Hans.
    unfold Clustering.wcss_loop. steps Hans.
    match goal with
    | |- context [Kernel.run L (Kernel.for_ _ _ ?acc) ?s0] =>
        destruct (for_wcss_body_log L (Clustering.values features) (range 1 11)
                    (fun i w _ => Hans _ (Clustering.KMeans_fit _ _) w) acc s0)
          as (models & s1 & Hlen & Hrun & Hlog);
        rewrite Hrun
    end.
    steps Hans.
    match goal with |- context [Kernel.Done _ ?sf] => exists sf end.
    unfold Observe.added. cbn [Kernel.log Kernel.record] in *.
    rewrite Hlog, <- ?app_assoc, drop_app_length. cbn [app].
    split; [simpl; tauto|].
    split; [exact Hf|]. split; [reflexivity|]. split; [reflexivity|].
    split; [exact Hsix|]. left.
    exists scaled. do 3 eexists. split; [reflexivity|].
    split; [reflexivity|]. split.
    { match goal with
      | |- context [concat ?turns ++ ?rest] =>
          remember (concat turns ++ rest) as tail eqn:Htail in |- *
      end.
      assert (omap Observe.feed_of tail
              = map (fun i => Observe.Clustered
                                {| Clustering.n_clusters := i |}
                                (Clustering.values features))
                    [1; 2; 3; 4; 5; 6; 7; 8; 9; 10]%Z) as Hfed
        by (subst tail; rewrite omap_app, turns_feed by exact Hlen;
            reflexivity).
      clear Htail.
      match goal with
      | |- omap _ ?l = _ =>
          let p := before_tail l tail in change l with (p ++ tail)
      end.
      rewrite omap_app, Hfed. reflexivity. }
    split; [exact Hnum|]. split; [|exact Hwidth].
    rewrite Hrows. apply length_map.
Qed.

Lemma features_first_six_columns_witness :
  exists data features,
    Clustering.features_of data = inr features
    /\ Clustering.columns features = take 6 (Clustering.columns data).
Proof.
  destruct (features_first_six_columns Cases.scaling (Kernel.start 0))
    as (data & features & s' & _ & Hf & Hcols & _).
  - intros X ev w. destruct ev; do 2 eexists; reflexivity.
  - intros w w' df Hc. simpl in Hc. injection Hc as _ <-.
    split; [apply (bool_decide_unpack _); vm_compute; exact I|].
    split; [simpl; lia|repeat constructor].
  - exists data, features. auto.
Defined.

(* --------------------------------------------------------------------- *)
(** ** The scatter plot of the two components *)
(* --------------------------------------------------------------------- *)

Section Columns.
Import Kernel Clustering.

Lemma column_inr j (a : ndarray) c :
  column j a = inr c <-> Forall2 (fun row x => row !! j = Some x) a c.
Proof.
  unfold column. rewrite <- mapM_Some.
  destruct (mapM _ a); split; congruence.
Qed.

Lemma column_inl j (a : ndarray) e :
  column j a = inl e <-> e = "IndexError" /\ Exists (fun row => length row <= j) a.
Proof.
  unfold column. destruct (mapM _ a) as [c|] eqn:Hm.
  - split; [discriminate|]. intros [_ Hex]. exfalso.
    apply mapM_Some_1 in Hm. apply Exists_exists in Hex as (row & Hrow & Hlen).
    apply list_elem_of_lookup in Hrow as [i Hi].
    destruct (Forall2_lookup_l _ _ _ _ _ Hm Hi) as (x & _ & Hx).
    apply lookup_lt_Some in Hx. lia.
  - split.
    + intros [= <-]. split; [reflexivity|].
      apply mapM_None_1 in Hm. eapply Exists_impl; [exact Hm|].
      intros row Hrow. apply lookup_ge_None, Hrow.
    + intros [-> _]. reflexivity.
Qed.

Lemma column_defined j (a : ndarray) :
  Forall (fun row => j < length row) a -> exists c, column j a = inr c.
Proof.
  intros Hall. destruct (column j a) as [e|c] eqn:Hc; [|eauto].
  apply column_inl in Hc as [_ Hex]. exfalso.
  apply Exists_exists in Hex as (row & Hrow & Hlen).
  rewrite Forall_forall in Hall. specialize (Hall row Hrow). lia.
Qed.
End Columns.

(** X8: when no library call raises and every row of [features_2d] has
    at least two entries, the scatter cell finishes and calls
    [plt.scatter] once, with as many abscissas and ordinates as there
    are rows: entry 0 and entry 1 of each row, in row order. *)
Theorem scatter_cell_plots_rows
    {W : Type} (L : Kernel.library Clustering.E W)
    (features_2d : Clustering.ndarray) (s : Kernel.kernel Clustering.E W) :
  Observe.answers L ->
  Forall (fun row => 2 <= length row) features_2d ->
  exists x y s',
    Kernel.run L (Clustering.scatter_cell features_2d) s = Kernel.Done tt s'
    /\ omap Observe.scatter_call (Observe.added s s') = [(x, y)]
    /\ length x = length features_2d
    /\ length y = length features_2d
    /\ forall i row,
         features_2d !! i = Some row -> x !! i = row !! 0 /\ y !! i = row !! 1.
Proof.
  intros Hans Hrows.
  destruct (column_defined 0 features_2d) as [x Hx];
    [eapply Forall_impl; [exact Hrows|]; simpl; lia|].
  destruct (column_defined 1 features_2d) as [y Hy];
    [eapply Forall_impl; [exact Hrows|]; simpl; lia|].
  exists x, y. unfold Clustering.scatter_cell. rewrite Hx, Hy. steps Hans.
  repeat match goal with u : unit |- _ => destruct u end.
  eexists. split; [reflexivity|]. read_log.
  apply column_inr in Hx, Hy.
  split; [reflexivity|].
  split; [symmetry; eapply Forall2_length, Hx|].
  split; [symmetry; eapply Forall2_length, Hy|].
  intros i row Hrow.
  destruct (Forall2_lookup_l _ _ _ _ _ Hx Hrow) as (a & -> & ->).
  destruct (Forall2_lookup_l _ _ _ _ _ Hy Hrow) as (b & -> & ->).
  split; reflexivity.
Qed.

(** X9: if some row of [features_2d] has fewer than two entries, the
    scatter cell stops at line 77 with [IndexError] and nothing is
    plotted. *)
Theorem scatter_cell_short_row
    {W : Type} (L : Kernel.library Clustering.E W)
    (features_2d : Clustering.ndarray) (s : Kernel.kernel Clustering.E W) :
  Observe.answers L ->
  Exists (fun row => length row < 2) features_2d ->
  exists s',
    Kernel.run L (Clustering.scatter_cell features_2d) s
    = Kernel.Failed "IndexError" s'
    /\ Kernel.lines (Observe.added s s') = [73; 75; 77]
    /\ omap Observe.scatter_call (Observe.added s s') = [].
Proof.
  intros Hans Hshort. unfold Clustering.scatter_cell.
  destruct (Clustering.column 0 features_2d) as [e0|x] eqn:Hx.
  - apply column_inl in Hx as [-> _]. steps Hans.
    rewrite run_lift_inl. eexists. split; [reflexivity|]. read_log.
    split; reflexivity.
  - destruct (Clustering.column 1 features_2d) as [e1|y] eqn:Hy.
    + apply column_inl in Hy as [-> _]. steps Hans.
      rewrite run_lift_inl. eexists. split; [reflexivity|]. read_log.
      split; reflexivity.
    + exfalso. apply column_inr in Hy.
      apply Exists_exists in Hshort as (row & Hrow & Hlen).
      apply list_elem_of_lookup in Hrow as [i Hi].
      destruct (Forall2_lookup_l _ _ _ _ _ Hy Hi) as (b & _ & Hb).
      apply lookup_lt_Some in Hb. lia.
Qed.

(* --------------------------------------------------------------------- *)
(** ** Transforms of the data notebook *)
(* --------------------------------------------------------------------- *)

Section Transforms.
Import Kernel Data Observe.

(** [ToTensor] on one pixel. *)
Lemma scaled_pixel_in_unit (p : Z) :
  (0 <= p <= 255)%Z ->
  in_unit (SFdiv F32.prec F32.emax (F32.of_Z p) (F32.of_Z 255)) = true.
Proof.
  intros Hp.
  assert (forallb (fun q => in_unit (SFdiv F32.prec F32.emax (F32.of_Z q)
                                       (F32.of_Z 255)))
                  (range 0 256) = true) as Hall by (vm_compute; reflexivity).
  rewrite forallb_forall in Hall. apply Hall.
  unfold range. apply in_map_iff. exists (Z.to_nat p).
  split; [lia|]. apply in_seq. lia.
Qed.

Lemma one_hot_defined (y : Z) :
  (0 <= y <= 9)%Z ->
  exists v,
    target_transform_lambda y = inr v
    /\ length v = 10
    /\ forall j, j < 10 ->
         v !! j = Some (if (j =? Z.to_nat y)%nat then F32.one else F32.zero).
Proof.
  intros Hy. apply label_cases in Hy.
  repeat (destruct Hy as [->|Hy]); subst;
    (eexists; split; [vm_compute; reflexivity|];
     split; [reflexivity|];
     intros j Hj;
     do 10 (destruct j as [|j]; [vm_compute; reflexivity|]); lia).
Qed.

(** What the format says about the sample at a position of the files. *)
Lemma format_sample (f : Files) (idx : nat) :
  fashion_mnist_format f = true -> idx < length (data f) ->
  exists img y,
    data f !! idx = Some img /\ targets f !! idx = Some y
    /\ image_ok img = true /\ (0 <= y <= 9)%Z.
Proof.
  intros Hf Hidx. unfold fashion_mnist_format in Hf.
  apply andb_prop in Hf as [Hf Hlabels]. apply andb_prop in Hf as [Hlen Himgs].
  apply Nat.eqb_eq in Hlen.
  destruct (lookup_lt_is_Some_2 (data f) idx Hidx) as [img Himg].
  destruct (lookup_lt_is_Some_2 (targets f) idx) as [y Hy];
    [unfold image in *; lia|].
  exists img, y. split; [exact Himg|]. split; [exact Hy|]. split.
  - rewrite forallb_forall in Himgs. apply Himgs.
    eapply list_elem_of_In, list_elem_of_lookup_2, Himg.
  - rewrite forallb_forall in Hlabels.
    assert (label_ok y = true) as Hok
      by (apply Hlabels; eapply list_elem_of_In, list_elem_of_lookup_2, Hy).
    unfold label_ok in Hok. lia.
Qed.

(** [squeeze] of one channel that is not a single row, nor rows of a
    single entry, is the channel. *)
Lemma squeeze_channel (plane : list (list float32)) :
  2 <= length plane ->
  Forall (fun row => 2 <= length row) plane ->
  squeeze [plane] = Rank2 plane.
Proof.
  intros Hh Hw.
  destruct plane as [|r1 [|r2 rest]]; simpl in Hh; try lia.
  apply Forall_inv in Hw.
  destruct r1 as [|x [|x' r1]]; simpl in Hw; try lia.
  unfold squeeze. simpl. rewrite app_nil_r. reflexivity.
Qed.
End Transforms.

Lemma image_ok_spec (img : Data.image) :
  Data.image_ok img = true ->
  length img = 28
  /\ Forall (fun row => length row = 28) img
  /\ Forall (Forall (fun p => (0 <= p <= 255)%Z)) img.
Proof.
  unfold Data.image_ok. intros Hok.
  apply andb_prop in Hok as [H28 Hrows]. apply Nat.eqb_eq in H28.
  rewrite forallb_forall in Hrows.
  split; [exact H28|]. split; apply Forall_forall; intros row Hrow;
    specialize (Hrows row (proj1 (list_elem_of_In _ _) Hrow));
    apply andb_prop in Hrows as [Hw Hpix].
  - apply Nat.eqb_eq, Hw.
  - apply Forall_forall. intros p Hp. rewrite forallb_forall in Hpix.
    specialize (Hpix p (proj1 (list_elem_of_In _ _) Hp)).
    unfold Data.pixel_ok in Hpix. lia.
Qed.

Lemma squeeze_ToTensor (img : Data.image) :
  2 <= length img ->
  Forall (fun row => 2 <= length row) img ->
  Data.squeeze (Data.ToTensor img)
  = Data.Rank2 (map (map (fun p => SFdiv F32.prec F32.emax (F32.of_Z p)
                                         (F32.of_Z 255))) img).
Proof.
  intros Hh Hw. unfold Data.ToTensor. apply squeeze_channel.
  - rewrite length_map. exact Hh.
  - apply Forall_map. eapply Forall_impl; [exact Hw|].
    intros row Hrow. simpl. rewrite length_map. exact Hrow.
Qed.

Lemma squeeze_stored_image (img : Data.image) :
  Data.image_ok img = true ->
  Data.squeeze (Data.ToTensor img)
  = Data.Rank2 (map (map (fun p => SFdiv F32.prec F32.emax (F32.of_Z p)
                                         (F32.of_Z 255))) img).
Proof.
  intros Hok. destruct (image_ok_spec img Hok) as (H28 & Hrows & _).
  apply squeeze_ToTensor; [lia|].
  eapply Forall_impl; [exact Hrows|]. intros row Hrow. simpl in Hrow. lia.
Qed.





(** X11: in files of the Fashion-MNIST format, every sample of the
    dataset [ds] of lines 230-236 is the image through [ToTensor] and
    the one-hot vector of its label: indexing inside the files never
    raises. *)
Theorem ds_samples_are_one_hot (f : Data.Files) (idx : nat) :
  Data.fashion_mnist_format f = true ->
  idx < length (Data.data f) ->
  exists img y v,
    Data.data f !! idx = Some img
    /\ Data.targets f !! idx = Some y
    /\ Data.getitem {| Data.files := f; Data.transform := Data.ToTensor;
                       Data.target_transform := Data.target_transform_lambda |}
                    idx
       = inr (Data.ToTensor img, v)
    /\ length v = 10
    /\ forall j, j < 10 ->
         v !! j = Some (if (j =? Z.to_nat y)%nat then F32.one else F32.zero).
Proof.
  intros Hf Hidx.
  destruct (format_sample f idx Hf Hidx) as (img & y & Himg & Hy & _ & Hrange).
  destruct (one_hot_defined y Hrange) as (v & Hv & Hlen & Hentries).
  exists img, y, v. split; [exact Himg|]. split; [exact Hy|].
  split; [|split; assumption].
  unfold Data.getitem. simpl. rewrite Himg, Hy, Hv. reflexivity.
Qed.

(** X12: on a label that a 64-bit integer holds, the [target_transform]
    lambda raises [RuntimeError] exactly when the label is outside 0..9
    (the index is out of bounds for [scatter_]), and it raises nothing
    else. *)
Theorem target_transform_raises_outside (y : Z) :
  Data.fits_int64 y = true ->
  (Data.target_transform_lambda y = inl "RuntimeError" <-> ~ (0 <= y <= 9)%Z)
  /\ (forall e, Data.target_transform_lambda y = inl e -> e = "RuntimeError").
Proof.
  intros Hfits.
  assert (~ (0 <= y <= 9)%Z ->
          Data.target_transform_lambda y = inl "RuntimeError") as Hout.
  { intros Hy. unfold Data.target_transform_lambda, Data.tensor.
    rewrite Hfits. unfold Data.scatter_. simpl.
    destruct ((0 <=? y) && (y <? Z.of_nat 10))%Z eqn:Hb; [|reflexivity].
    exfalso. apply Hy. apply andb_prop in Hb as [H1 H2].
    apply Z.leb_le in H1. apply Z.ltb_lt in H2. simpl in H2. lia. }
  split; [split; [|exact Hout]|].
  - intros Hraise Hy. destruct (one_hot_defined y Hy) as (v & Hv & _).
    congruence.
  - intros e He.
    destruct (Z_le_dec 0 y) as [H0|H0]; [destruct (Z_le_dec y 9) as [H9|H9]|].
    + destruct (one_hot_defined y (conj H0 H9)) as (v & Hv & _). congruence.
    + rewrite Hout in He by lia. congruence.
    + rewrite Hout in He by lia. congruence.
Qed.



(* --------------------------------------------------------------------- *)
(** ** The grid of sample images *)
(* --------------------------------------------------------------------- *)

Section ShowGrid.
Import Kernel Data Observe.
Context {W : Type} (L : library E W) (f : Files).
Hypothesis Hans : answers L.
Hypothesis Hf : fashion_mnist_format f = true.
Hypothesis Hrand :
  forall w w' r,
    call L (torch_randint (Z.of_nat (len (opened f)))) w = (w', inr r) ->
    (0 <= r < Z.of_nat (len (opened f)))%Z.

Lemma at_index_opened (r : Z) :
  (0 <= r < Z.of_nat (len (opened f)))%Z ->
  exists img y,
    at_index (opened f) r = inr (ToTensor img, y)
    /\ image_ok img = true /\ (0 <= y <= 9)%Z.
Proof.
  intros Hr.
  destruct (format_sample f (Z.to_nat r) Hf) as (img & y & Himg & Hy & Hok & Hrange);
    [unfold len in Hr; simpl in Hr; lia|].
  exists img, y. split; [|split; assumption].
  unfold at_index.
  rewrite (proj2 (Z.leb_le 0 r)), (proj2 (Z.ltb_lt r _)) by lia.
  unfold getitem. simpl. rewrite Himg, Hy. reflexivity.
Qed.

Lemma show_body_runs (i : Z) (s : kernel E W) :
  exists s' d name plane,
    run L (show_body (opened f) i tt) s = Done tt s'
    /\ log s' = log s ++ d
    /\ omap subplot_call d = [(3, 3, i)%Z]
    /\ omap title_call d = [name] /\ class_title name
    /\ omap imshow_call d = [plane] /\ length plane = 28.
Proof.
  unfold show_body. steps Hans.
  match goal with
  | H : call L (torch_randint _) _ = (_, inr ?r) |- _ =>
      destruct (at_index_opened r (Hrand _ _ _ H))
        as (img & y & Hat & Hok & Hy)
  end.
  rewrite Hat. steps Hans. cbn [fst snd].
  destruct (proj2 (labels_map_domain y) Hy) as [name Hname].
  unfold class_name. rewrite Hname. steps Hans.
  rewrite (squeeze_stored_image img Hok). steps Hans.
  repeat match goal with u : unit |- _ => destruct u end.
  eexists. eexists. exists name. eexists.
  split; [reflexivity|].
  split; [cbn [log record]; rewrite <- ?app_assoc; reflexivity|].
  split; [reflexivity|]. split; [reflexivity|].
  split; [exists y; auto|]. split; [reflexivity|].
  rewrite length_map. exact (proj1 (image_ok_spec img Hok)).
Qed.

Lemma show_loop_runs (cs : list Z) :
  forall s,
  exists s' d,
    run L (for_ cs (show_body (opened f)) tt) s = Done tt s'
    /\ log s' = log s ++ d
    /\ omap subplot_call d = map (fun i => (3, 3, i)%Z) cs
    /\ length (omap title_call d) = length cs
    /\ Forall class_title (omap title_call d)
    /\ length (omap imshow_call d) = length cs
    /\ Forall (fun plane => length plane = 28) (omap imshow_call d).
Proof.
  induction cs as [|i rest IH]; intros s.
  - exists s, []. rewrite app_nil_r. repeat split; constructor.
  - destruct (show_body_runs i s)
      as (s1 & d1 & name & plane & Hrun & Hlog & Hsub & Htitle & Hname & Him & H28).
    destruct (IH s1) as (s' & d & Hrun' & Hlog' & Hsub' & Hlt & Ht & Hli & Hi).
    exists s', (d1 ++ d). cbn [for_]. rewrite run_bind, Hrun, Hrun'.
    split; [reflexivity|].
    split; [rewrite Hlog', Hlog, <- app_assoc; reflexivity|].
    rewrite !omap_app, Hsub, Hsub', Htitle, Him. simpl.
    repeat split; try (f_equal; assumption); constructor; assumption.
Qed.
End ShowGrid.

(** X13: on files of the Fashion-MNIST format, when no library call
    raises and [torch.randint(len(training_data))] answers below its
    bound, the cell that draws the 3x3 grid finishes: it fills the
    subplots 1 to 9 in order, gives each a class name of [labels_map] as
    its title and an image of 28 rows; no lookup of the cell raises
    [IndexError] or [KeyError]. *)
Theorem show_cell_fills_grid
    {W : Type} (L : Kernel.library Data.E W) (f : Data.Files)
    (s : Kernel.kernel Data.E W) :
  Observe.answers L ->
  Data.fashion_mnist_format f = true ->
  (forall w w' r,
     Kernel.call L (Data.torch_randint (Z.of_nat (Data.len (Observe.opened f)))) w
     = (w', inr r) ->
     (0 <= r < Z.of_nat (Data.len (Observe.opened f)))%Z) ->
  exists s',
    Kernel.run L (Data.show_cell (Observe.opened f)) s = Kernel.Done tt s'
    /\ omap Observe.subplot_call (Observe.added s s')
       = map (fun i => (3, 3, i)%Z) [1; 2; 3; 4; 5; 6; 7; 8; 9]%Z
    /\ length (omap Observe.title_call (Observe.added s s')) = 9
    /\ Forall Observe.class_title (omap Observe.title_call (Observe.added s s'))
    /\ length (omap Observe.imshow_call (Observe.added s s')) = 9
    /\ Forall (fun plane => length plane = 28)
              (omap Observe.imshow_call (Observe.added s s')).
Proof.
  intros Hans Hf Hrand. unfold Data.show_cell. steps Hans. cbn [fst snd].
  match goal with
  | |- context [Kernel.run L (Kernel.for_ ?cs _ tt) ?s0] =>
      destruct (show_loop_runs L f Hans Hf Hrand cs s0)
        as (s1 & d & Hrun & Hlog & Hsub & Hlt & Ht & Hli & Hi);
      rewrite Hrun
  end.
  steps Hans.
  repeat match goal with u : unit |- _ => destruct u end.
  eexists. split; [reflexivity|].
  unfold Observe.added. cbn [Kernel.log Kernel.record] in *.
  rewrite Hlog, <- ?app_assoc, drop_app_length. cbn [app].
  skip_entries. rewrite !omap_app. simpl. rewrite !app_nil_r.
  repeat split; assumption.
Qed.

(* --------------------------------------------------------------------- *)
(** ** The gradient cells on tensors of any shape *)
(* --------------------------------------------------------------------- *)

(** Runs the TensorFlow model as far as the tensors' entries allow;
    the lookups on the heap are by handle. *)
Ltac tf_eval :=
  repeat first
    [ progress cbn -[TF.rectangular TF.matmul_value TF.transpose
                     TF.reduce_sum_value TF.tape_gradient]
    | rewrite lookup_fmap
    | rewrite lookup_insert_eq
    | rewrite lookup_insert_ne by discriminate
    | rewrite lookup_singleton_eq
    | rewrite lookup_singleton_ne by discriminate
    | rewrite lookup_empty
    | progress unfold TF.accumulate ].

Section Shapes.
Import Kernel TF Observe.
Context {T : Type} `{Num T}.

Lemma shape_ncols a b (m : matrix T) :
  has_shape a b m -> 1 <= a -> ncols m = b.
Proof.
  intros [Hlen Hrows] Ha. destruct m as [|row m]; simpl in *; [lia|].
  apply Forall_inv in Hrows. exact Hrows.
Qed.

Lemma shape_rectangular a b (m : matrix T) :
  has_shape a b m -> rectangular m = true.
Proof.
  intros [Hlen Hrows]. unfold rectangular. apply forallb_forall.
  intros row Hrow. apply Nat.eqb_eq.
  destruct m as [|r0 m]; [inversion Hrow|]. simpl.
  rewrite Forall_forall in Hrows.
  rewrite (Hrows row), (Hrows r0); [reflexivity|left|apply list_elem_of_In, Hrow].
Qed.




End Shapes.


(** X15: if the inner dimensions of [U] (a x k) and [V] (k' x n) differ,
    the gradient cell stops at [tf.matmul] (line 58) with
    [InvalidArgumentError]: nothing is printed, and the last thing the
    kernel does is leave the [with] block of the tape. *)
Theorem watch_cell_shape_mismatch
    {T : Type} `{TF.Num T} (u v : TF.matrix T) (a k k' n : nat) :
  1 <= a -> k <> k' ->
  Observe.has_shape a k u -> Observe.has_shape k' n v ->
  exists s',
    Kernel.run TF.tf (TF.watch_cell u v) (Kernel.start TF.empty_runtime)
    = Kernel.Failed "InvalidArgumentError" s'
    /\ Kernel.lines (Kernel.log s') = [52; 53; 55; 56; 57; 58]
    /\ TF.stdout (Kernel.world s') = []
    /\ last (Kernel.log s') = Some (Kernel.LExit (TF.GradientTape true))
    /\ TF.printed (TF.variable_cell u v) = inl "InvalidArgumentError".
Proof.
  intros Ha Hkk Hu Hv.
  assert (TF.matmul_value u v = inl "InvalidArgumentError") as Hm.
  { unfold TF.matmul_value.
    rewrite (shape_ncols a k u Hu Ha), (proj1 Hv).
    destruct (Nat.eqb_spec k k'); [contradiction|reflexivity]. }
  pose proof (shape_rectangular a k u Hu) as Hru.
  pose proof (shape_rectangular k' n v Hv) as Hrv.
  eexists. split; [|split; [|split; [|split]]].
  - unfold TF.watch_cell. rewrite !run_bind, !run_stmt.
    tf_eval. rewrite Hru. tf_eval. rewrite Hrv. tf_eval. rewrite Hm. tf_eval.
    reflexivity.
  - reflexivity.
  - reflexivity.
  - reflexivity.
  - unfold TF.printed, TF.variable_cell. rewrite !run_bind, !run_stmt.
    tf_eval. rewrite Hru. tf_eval. rewrite Hrv. tf_eval. rewrite Hm. tf_eval.
    reflexivity.
Qed.

(* --------------------------------------------------------------------- *)
(** ** Identifiers of the module files *)
(* --------------------------------------------------------------------- *)

(** X16: in every module file the badge uid is the module uid followed
    by [.badge], the title under [metadata] is the top-level title, and
    the unit identifiers are pairwise different, also after stripping
    the leading space one of them carries. *)
Theorem module_files_consistent :
  Forall (fun y => Observe.consistent y = true) Yaml.module_files
  /\ forall y uid units,
       In y Yaml.module_files ->
       Observe.str_at ["uid"] y = Some uid ->
       Yaml.get_strs "units" y = Some units ->
       Observe.str_at ["badge"; "uid"] y = Some (uid ++ ".badge")%string
       /\ NoDup (map Yaml.lstrip units)
       /\ (uid ++ ".badge")%string ∉ map Yaml.lstrip units.
Proof.
  split.
  - unfold Yaml.module_files. repeat constructor; vm_compute; reflexivity.
  - intros y uid units [<-|[<-|[]]] Huid Hunits;
      vm_compute in Huid; vm_compute in Hunits;
      injection Huid as <-; injection Hunits as <-;
      (split; [vm_compute; reflexivity|]);
      (split; [apply (bool_decide_unpack _); vm_compute; exact I|]);
      apply (bool_decide_unpack _); vm_compute; exact I.
Qed.

(* --------------------------------------------------------------------- *)
(** ** The first batch of the loader *)
(* --------------------------------------------------------------------- *)

(** X17: when no library call raises and the loader hands over a batch
    that starts with a one-channel image and a label, the cell of lines
    175-182 finishes: it prints the two batch shapes, shows that first
    image squeezed (its channel, when that has at least two rows of at
    least two entries) and prints that first label. *)
Theorem iterate_cell_shows_first_sample
    {W : Type} (L : Kernel.library Data.E W)
    (loader : Data.DataLoader) (s : Kernel.kernel Data.E W) :
  Observe.answers L ->
  (forall w w' b,
     Kernel.call L (Data.DataLoader_next (Data.dataset loader)
                      (Data.batch_size loader) (Data.shuffle loader)) w
     = (w', inr b) ->
     exists plane imgs y ys, b = ([plane] :: imgs, y :: ys)) ->
  exists plane imgs y ys s',
    Kernel.run L (Data.iterate_cell loader) s = Kernel.Done tt s'
    /\ In (Kernel.LCall (Data.DataLoader_next (Data.dataset loader)
                           (Data.batch_size loader) (Data.shuffle loader))
                        (inr ([plane] :: imgs, y :: ys)))
          (Observe.added s s')
    /\ omap Observe.shown_call (Observe.added s s') = [Data.squeeze [plane]]
    /\ (2 <= length plane -> Forall (fun row => 2 <= length row) plane ->
        omap Observe.imshow_call (Observe.added s s') = [plane])
    /\ omap Observe.print_call (Observe.added s s')
       = [("Feature batch shape: ", Data.size4 ([plane] :: imgs));
          ("Labels batch shape: ", [Z.of_nat (length (y :: ys))]);
          ("Label: ", [y])].
Proof.
  intros Hans Hbatch. unfold Data.iterate_cell. steps Hans.
  match goal with
  | Hc : Kernel.call L (Data.DataLoader_next _ _ _) _ = (_, inr ?b) |- _ =>
      destruct (Hbatch _ _ _ Hc) as (plane & imgs & y & ys & ->)
  end.
  cbn [fst snd Data.first]. steps Hans.
  repeat match goal with u : unit |- _ => destruct u end.
  exists plane, imgs, y, ys. eexists. split; [reflexivity|].
  read_log. split; [simpl; tauto|]. split; [reflexivity|].
  split; [|reflexivity].
  intros Hh Hw. unfold Observe.imshow_call. cbn [omap Observe.shown_call].
  rewrite (squeeze_channel plane Hh Hw). reflexivity.
Qed.

(* --------------------------------------------------------------------- *)
(** ** Indexing a dataset *)
(* --------------------------------------------------------------------- *)

(** X18: on files of the Fashion-MNIST format with n images, for an
    index i that a 64-bit integer holds, [training_data[i]] raises
    [IndexError] exactly when i is outside -n .. n-1, and it raises
    nothing else; a negative i counts from the end. *)
Theorem dataset_index_bounds (f : Data.Files) (i : Z) :
  Data.fashion_mnist_format f = true ->
  Data.fits_int64 i = true ->
  let n := Z.of_nat (length (Data.data f)) in
  (Data.at_index (Observe.opened f) i = inl "IndexError"
   <-> ~ (- n <= i < n)%Z)
  /\ (forall e, Data.at_index (Observe.opened f) i = inl e -> e = "IndexError")
  /\ ((- n <= i < 0)%Z ->
      Data.at_index (Observe.opened f) i
      = Data.at_index (Observe.opened f) (n + i)).
Proof.
  intros Hf Hfits n.
  assert (forall idx, idx < length (Data.data f) ->
                      exists sample, Data.getitem (Observe.opened f) idx = inr sample)
    as Hin.
  { intros idx Hidx.
    destruct (format_sample f idx Hf Hidx) as (img & y & Himg & Hy & _).
    eexists. unfold Data.getitem. simpl. rewrite Himg, Hy. reflexivity. }
  assert (forall idx, length (Data.data f) <= idx ->
                      Data.getitem (Observe.opened f) idx = inl "IndexError")
    as Hout.
  { intros idx Hidx. unfold Data.getitem. simpl.
    rewrite (proj2 (lookup_ge_None (Data.data f) idx)) by lia. reflexivity. }
  assert (Data.len (Observe.opened f) = length (Data.data f)) as Hlen
    by reflexivity.
  unfold Data.at_index. rewrite Hlen, Hfits. fold n.
  destruct (Z.leb_spec 0 i) as [Hpos|Hneg];
    destruct (Z.ltb_spec i n) as [Hlt|Hge]; cbn [andb].
  - destruct (Hin (Z.to_nat i)) as [sample Hs]; [lia|]. rewrite Hs.
    split; [split; [discriminate|lia]|]. split; [discriminate|lia].
  - destruct (Z.leb_spec (- n) i); destruct (Z.ltb_spec i 0); cbn [andb];
      try lia.
    split; [split; [lia|reflexivity]|]. split; [congruence|lia].
  - destruct (Z.leb_spec (- n) i) as [Hge|Hlt'];
      destruct (Z.ltb_spec i 0); cbn [andb]; try lia.
    + destruct (Hin (Z.to_nat (n + i))) as [sample Hs]; [lia|]. rewrite Hs.
      split; [split; [discriminate|lia]|]. split; [discriminate|].
      intros _.
      rewrite (proj2 (Z.leb_le 0 (n + i))), (proj2 (Z.ltb_lt (n + i) n)) by lia.
      reflexivity.
    + split; [split; [lia|reflexivity]|]. split; [congruence|lia].
  - lia.
Qed.

(* --------------------------------------------------------------------- *)
(** ** Instances of the further properties *)
(* --------------------------------------------------------------------- *)

Ltac always_answers :=
  let ev := fresh "ev" in
  intros ? ev ?; destruct ev; do 2 eexists; reflexivity.

Lemma getitem_keeps_cells_witness :
  exists r,
    Clustering.getitem Demo.seeds ["perimeter"; "area"] = inr r
    /\ Clustering.columns r = ["perimeter"; "area"].
Proof.
  eexists. split; [vm_compute; reflexivity|].
  refine (proj1 (getitem_keeps_cells Demo.seeds _ ["perimeter"; "area"] _ _ _)).
  - apply (bool_decide_unpack _). vm_compute. exact I.
  - repeat constructor.
  - vm_compute. reflexivity.
Defined.

Lemma features_of_short_table_witness :
  Clustering.features_of Demo.seeds = inr Demo.seeds_features.
Proof.
  refine (proj1 (features_of_short_table Demo.seeds _)).
  apply (bool_decide_unpack _). vm_compute. exact I.
Defined.

Lemma load_then_pca_calls_witness :
  exists r s',
    Kernel.run Demo.sklearn Observe.load_then_pca (Kernel.start 0)
    = Kernel.Done r s'.
Proof.
  destruct (load_then_pca_calls Demo.sklearn (Kernel.start 0))
    as (data & features & X & scaled & pca & features_2d & s' & Hrun & _).
  - always_answers.
  - eauto.
Defined.

Lemma wcss_cell_plots_ten_points_witness :
  exists wcss s',
    Kernel.run Demo.sklearn (Clustering.wcss_cell Demo.seeds_features)
               (Kernel.start 0)
    = Kernel.Done wcss s'
    /\ length wcss = 10.
Proof.
  destruct (wcss_cell_plots_ten_points Demo.sklearn Demo.seeds_features
              (Kernel.start 0))
    as (wcss & s' & Hrun & _ & Hlen & _).
  - always_answers.
  - eauto.
Defined.

Lemma wcss_cell_stops_at_failing_fit_witness :
  exists s',
    Kernel.run Cases.strict (Clustering.wcss_cell Demo.seeds_features)
               (Kernel.start 0)
    = Kernel.Failed "ValueError" s'.
Proof.
  destruct (wcss_cell_stops_at_failing_fit Cases.strict Demo.seeds_features
              (Kernel.start 0) 3 "ValueError")
    as (models & s' & Hrun & _).
  - lia.
  - intros X ev w. destruct ev; try exact I; do 2 eexists; reflexivity.
  - intros i w Hi. assert (i = 1 \/ i = 2)%Z as [-> | ->] by lia;
      do 2 eexists; reflexivity.
  - intros w. eexists. reflexivity.
  - eauto.
Defined.

Lemma scatter_cell_plots_rows_witness :
  exists (x y : list Clustering.scalar) s',
    Kernel.run Demo.sklearn
      (Clustering.scatter_cell (map (take 2) (Clustering.rows Demo.seeds)))
      (Kernel.start 0)
    = Kernel.Done tt s'
    /\ length x = 2 /\ length y = 2.
Proof.
  destruct (scatter_cell_plots_rows Demo.sklearn
              (map (take 2) (Clustering.rows Demo.seeds)) (Kernel.start 0))
    as (x & y & s' & Hrun & _ & Hx & Hy & _).
  - always_answers.
  - repeat constructor.
  - exists x, y, s'. auto.
Defined.

Lemma scatter_cell_short_row_witness :
  exists s',
    Kernel.run Demo.sklearn
      (Clustering.scatter_cell (map (take 1) (Clustering.rows Demo.seeds)))
      (Kernel.start 0)
    = Kernel.Failed "IndexError" s'.
Proof.
  destruct (scatter_cell_short_row Demo.sklearn
              (map (take 1) (Clustering.rows Demo.seeds)) (Kernel.start 0))
    as (s' & Hrun & _).
  - always_answers.
  - left. simpl. lia.
  - eauto.
Defined.


Lemma target_transform_raises_outside_witness :
  Data.target_transform_lambda 10 = inl "RuntimeError".
Proof.
  apply (proj1 (target_transform_raises_outside 10 eq_refl)). lia.
Defined.

Lemma ds_samples_are_one_hot_witness :
  exists img v,
    Data.getitem {| Data.files := Demo.blank; Data.transform := Data.ToTensor;
                    Data.target_transform := Data.target_transform_lambda |} 0
    = inr (Data.ToTensor img, v)
    /\ length v = 10.
Proof.
  destruct (ds_samples_are_one_hot Demo.blank 0)
    as (img & y & v & _ & _ & Hget & Hlen & _).
  - vm_compute. reflexivity.
  - simpl. lia.
  - eauto.
Defined.

Lemma show_cell_fills_grid_witness :
  exists s',
    Kernel.run Cases.torch (Data.show_cell (Observe.opened Demo.blank))
               (Kernel.start 0)
    = Kernel.Done tt s'.
Proof.
  destruct (show_cell_fills_grid Cases.torch Demo.blank (Kernel.start 0))
    as (s' & Hrun & _).
  - always_answers.
  - vm_compute. reflexivity.
  - intros w w' r Hc. simpl in Hc. injection Hc as _ <-.
    change (Data.len (Observe.opened Demo.blank)) with 1. lia.
  - eauto.
Defined.


Lemma watch_cell_shape_mismatch_witness :
  TF.printed (TF.variable_cell TF.U [[F32.of_Z 1; F32.of_Z 2; F32.of_Z 3]])
  = inl "InvalidArgumentError".
Proof.
  destruct (watch_cell_shape_mismatch TF.U
              [[F32.of_Z 1; F32.of_Z 2; F32.of_Z 3]] 1 2 1 3)
    as (s' & _ & _ & _ & _ & Hv);
    try lia; try (split; [reflexivity|repeat constructor]).
  exact Hv.
Defined.

Lemma iterate_cell_shows_first_sample_witness :
  exists s',
    Kernel.run Cases.torch
      (Data.iterate_cell {| Data.dataset := Observe.opened Demo.blank;
                            Data.batch_size := 64; Data.shuffle := true |})
      (Kernel.start 0)
    = Kernel.Done tt s'.
Proof.
  destruct (iterate_cell_shows_first_sample Cases.torch
              {| Data.dataset := Observe.opened Demo.blank;
                 Data.batch_size := 64; Data.shuffle := true |}
              (Kernel.start 0))
    as (plane & imgs & y & ys & s' & Hrun & _).
  - always_answers.
  - intros w w' b Hc. simpl in Hc. injection Hc as _ <-.
    do 4 eexists. reflexivity.
  - eauto.
Defined.

Lemma dataset_index_bounds_witness :
  Data.at_index (Observe.opened Demo.blank) (-1)
  = Data.at_index (Observe.opened Demo.blank) 0.
Proof.
  refine (proj2 (proj2 (dataset_index_bounds Demo.blank (-1) _ _)) _).
  - vm_compute. reflexivity.
  - reflexivity.
  - simpl. lia.
Defined.

(* --------------------------------------------------------------------- *)
(** ** The samples the notebook sees *)
(* --------------------------------------------------------------------- *)

(** X19: on files of the Fashion-MNIST format, a sample of
    [training_data] (built with [transform=ToTensor()]) is a tensor of
    one channel of 28 rows of 28 entries, each between 0.0 and 1.0, with
    the stored integer label, which lies in 0..9. *)
Theorem training_samples_are_unit_tensors (f : Data.Files) (idx : nat) :
  Data.fashion_mnist_format f = true ->
  idx < length (Data.data f) ->
  exists plane y,
    Data.getitem (Observe.opened f) idx = inr ([plane], y)
    /\ Data.targets f !! idx = Some y
    /\ (0 <= y <= 9)%Z
    /\ length plane = 28
    /\ Forall (fun row => length row = 28
                          /\ Forall (fun x => Observe.in_unit x = true) row)
              plane.
Proof.
  intros Hf Hidx.
  destruct (format_sample f idx Hf Hidx) as (img & y & Himg & Hy & Hok & Hrange).
  destruct (image_ok_spec img Hok) as (H28 & Hrows & Hpix).
  eexists. exists y. split.
  { unfold Data.getitem. simpl. rewrite Himg, Hy. reflexivity. }
  split; [exact Hy|]. split; [exact Hrange|].
  split; [rewrite length_map; exact H28|].
  apply Forall_map, Forall_forall. intros row Hrow. simpl.
  rewrite Forall_forall in Hrows, Hpix.
  split; [rewrite length_map; apply Hrows, Hrow|].
  apply Forall_map. eapply Forall_impl; [apply Hpix, Hrow|].
  intros p Hp. simpl. apply scaled_pixel_in_unit, Hp.
Qed.

Lemma training_samples_are_unit_tensors_witness :
  exists plane y,
    Data.getitem (Observe.opened Demo.blank) 0 = inr ([plane], y)
    /\ Data.targets Demo.blank !! 0 = Some y.
Proof.
  destruct (training_samples_are_unit_tensors Demo.blank 0)
    as (plane & y & Hget & Hy & _).
  - vm_compute. reflexivity.
  - simpl. lia.
  - eauto.
Defined.
